(** * aioquant: the Binance trade connector (aioquant/platform/binance.py)

    A shallow embedding of [BinanceRestAPI] (request signing and the REST
    operations the trade object uses) and of [BinanceTrade] (constructor,
    snapshot loading, stream processing, order creation and cancellation),
    followed by the properties of the connector's specification.

    Python objects are modelled by an explicit value type, exceptions by an
    outcome type, and the effects of the methods (HTTP fetches, callback
    dispatch, mutation of the live order mapping) by a state monad whose state
    also records the history of those effects. Logging is not modelled. *)

From stdpp Require Import base strings gmap list pretty.
From Stdlib Require Import ZArith Ascii.

Set Warnings "-register-all".

Open Scope string_scope.
Open Scope Z_scope.

(** ** Python values *)

Section Values.

(** [F] stands for Python's float (IEEE binary64); its operations are
    parameters of the development, see [Binance] below. *)
Variable F : Type.

Inductive value : Type :=
| VNone
| VBool (b : bool)
| VInt (z : Z)
| VFloat (f : F)
| VStr (s : string)
| VList (l : list value)
| VDict (d : list (string * value))
| VObj (name : string).

(** Exceptions raised by the modelled code. *)
Inductive exn : Type :=
| KeyError (key : string)
| TypeError
| ValueError
| AttributeError
| OverflowError.

Inductive outcome (A : Type) : Type :=
| Done (a : A)
| Raised (e : exn).

End Values.

Arguments VNone {F}.
Arguments VBool {F} b.
Arguments VInt {F} z.
Arguments VFloat {F} f.
Arguments VStr {F} s.
Arguments VList {F} l.
Arguments VDict {F} d.
Arguments VObj {F} name.
Arguments Done {A} a.
Arguments Raised {A} e.

(** Association lists with Python's [dict] behaviour: keys are unique, a
    lookup finds the entry of a key, assignment to an existing key keeps its
    position and assignment to a new key appends (insertion order). *)
Fixpoint dict_lookup {V : Type} (d : list (string * V)) (key : string) : option V :=
  match d with
  | [] => None
  | (k, v) :: rest => if String.eqb k key then Some v else dict_lookup rest key
  end.

Fixpoint dict_set {V : Type} (d : list (string * V)) (key : string) (v : V)
  : list (string * V) :=
  match d with
  | [] => [(key, v)]
  | (k, w) :: rest =>
      if String.eqb k key then (k, v) :: rest else (k, w) :: dict_set rest key v
  end.

(** [d.update(other)] *)
Definition dict_update {V : Type} (d other : list (string * V)) : list (string * V) :=
  fold_left (fun acc kv => dict_set acc (fst kv) (snd kv)) other d.

(** [sep.join(parts)] *)
Fixpoint str_join (sep : string) (parts : list string) : string :=
  match parts with
  | [] => ""
  | [p] => p
  | p :: rest => p ++ sep ++ str_join sep rest
  end.

(** [s.replace(c, "")] for a one-character [c] *)
Fixpoint str_remove (c : Ascii.ascii) (s : string) : string :=
  match s with
  | EmptyString => EmptyString
  | String a rest =>
      if Ascii.eqb a c then str_remove c rest else String a (str_remove c rest)
  end.

Definition str_nonempty (s : string) : bool :=
  match s with
  | EmptyString => false
  | String _ _ => true
  end.

(** ** The enumerations of [aioquant.order] and the callbacks *)

Inductive order_action : Type := ORDER_ACTION_BUY | ORDER_ACTION_SELL.
Inductive order_type : Type := ORDER_TYPE_LIMIT | ORDER_TYPE_MARKET.

(** The normalized status vocabulary imported from [aioquant.order]. *)
Inductive order_status : Type :=
| ORDER_STATUS_SUBMITTED
| ORDER_STATUS_PARTIAL_FILLED
| ORDER_STATUS_FILLED
| ORDER_STATUS_CANCELED
| ORDER_STATUS_FAILED.

#[global] Instance order_status_eq_dec : EqDecision order_status.
Proof. solve_decision. Defined.

(** The callbacks a trade object dispatches to. *)
Inductive callback : Type :=
| order_update_callback
| init_callback
| error_callback.

(** ** The objects of the connector *)

Section Types.

Variable F : Type.
Variable World : Type.

Local Abbreviation value := (value F).

(** Modelled from the spec: the class [Order] of [aioquant.order], which is
    not part of the file. An order is a record of the attributes the spec's
    data model lists; the constructor stores the keyword arguments it is
    given, and an attribute that is not passed takes the class default,
    a parameter of the runtime below. *)
Record Order : Type := mkOrder {
  platform : value;
  account : value;
  strategy : value;
  order_id : string;
  client_order_id : value;
  action : order_action;
  order_type_ : order_type;
  symbol : value;
  price : value;
  quantity : value;
  remain : value;
  status : order_status;
  ctime : value;
  utime : value;
}.

(** What a callback is run with: a plain value, an [Error(msg)] object, or
    a copy of an order. *)
Inductive callback_arg : Type :=
| AValue (v : value)
| AError (msg : string)
| AOrder (o : Order).

(** The effects a method performs, in program order.

    Modelled from the spec: [AsyncHttpRequests.fetch] (aioquant.utils.web),
    [SingleTask.run] and [LoopRunTask.register] (aioquant.tasks) are not part
    of the file. A fetch takes (method, url, headers) and answers with a
    (success, error) pair; a callback or task is handed over fire-and-forget
    and the caller never waits for it. Each is recorded when it is issued,
    the fetch together with its reply. Assignments to and removals from
    [self._orders] are recorded as well, so that the history shows their
    order relative to the callbacks. *)
Inductive effect : Type :=
| Fetch (method url : string) (headers : list (string * value)) (success error : value)
| Callback (cb : callback) (args : list callback_arg)
| OrdersSet (id : string)
| OrdersPop (id : string)
| LoopRun (task : string) (interval : Z)
| Task (name : string).

(** The state the methods run in: the live order mapping [self._orders],
    the outside world, and the effects performed so far. *)
Record state : Type := mkState {
  _orders : gmap string Order;
  world : World;
  history : list effect;
}.

(** The attributes of a REST client and of a trade object. *)
Record BinanceRestAPI : Type := mkBinanceRestAPI {
  api_host : value;
  api_access_key : value;
  api_secret_key : value;
}.

Record BinanceTrade : Type := mkBinanceTrade {
  _account : value;
  _strategy : value;
  _platform : value;
  _symbol : value;
  _host : value;
  _wss : value;
  _access_key : value;
  _secret_key : value;
  _order_update_callback : value;
  _init_callback : value;
  _error_callback : value;
  _raw_symbol : string;
  _rest_api : BinanceRestAPI;
}.

(** What [revoke_order] returns in its three modes. *)
Inductive revoke_result : Type :=
| RevokeAll (ok : bool) (error : value)
| RevokeOne (order_id : value) (error : value)
| RevokeMany (success : list value) (error : list (value * value)).

(** Computations: a state transformer that either returns or raises; the
    state reached is kept in both cases. *)
Definition M (A : Type) : Type := state -> outcome A * state.

Definition ret {A : Type} (a : A) : M A := fun st => (Done a, st).

Definition raise {A : Type} (e : exn) : M A := fun st => (Raised e, st).

Definition bind {A B : Type} (m : M A) (k : A -> M B) : M B :=
  fun st =>
    match m st with
    | (Done a, st') => k a st'
    | (Raised e, st') => (Raised e, st')
    end.

Definition lift {A : Type} (o : outcome A) : M A := fun st => (o, st).

Definition emit (e : effect) : M unit :=
  fun st => (Done tt, mkState (_orders st) (world st) (history st ++ [e])).

Definition get_orders : M (gmap string Order) := fun st => (Done (_orders st), st).

Definition put_orders (m : gmap string Order) : M unit :=
  fun st => (Done tt, mkState m (world st) (history st)).

End Types.

Arguments mkOrder {F}.
Arguments platform {F} o.
Arguments account {F} o.
Arguments strategy {F} o.
Arguments order_id {F} o.
Arguments client_order_id {F} o.
Arguments action {F} o.
Arguments order_type_ {F} o.
Arguments symbol {F} o.
Arguments price {F} o.
Arguments quantity {F} o.
Arguments remain {F} o.
Arguments status {F} o.
Arguments ctime {F} o.
Arguments utime {F} o.
Arguments AValue {F}.
Arguments AError {F}.
Arguments AOrder {F}.
Arguments Fetch {F}.
Arguments Callback {F}.
Arguments OrdersSet {F}.
Arguments OrdersPop {F}.
Arguments LoopRun {F}.
Arguments Task {F}.
Arguments mkState {F World}.
Arguments _orders {F World} s.
Arguments world {F World} s.
Arguments history {F World} s.
Arguments mkBinanceRestAPI {F}.
Arguments api_host {F} b.
Arguments api_access_key {F} b.
Arguments api_secret_key {F} b.
Arguments mkBinanceTrade {F}.
Arguments _account {F} b.
Arguments _strategy {F} b.
Arguments _platform {F} b.
Arguments _symbol {F} b.
Arguments _host {F} b.
Arguments _wss {F} b.
Arguments _access_key {F} b.
Arguments _secret_key {F} b.
Arguments _order_update_callback {F} b.
Arguments _init_callback {F} b.
Arguments _error_callback {F} b.
Arguments _raw_symbol {F} b.
Arguments _rest_api {F} b.
Arguments RevokeAll {F}.
Arguments RevokeOne {F}.
Arguments RevokeMany {F}.

Arguments ret {F World A} a.
Arguments raise {F World A} e.
Arguments bind {F World A B} m k.
Arguments lift {F World A} o.
Arguments emit {F World} e.
Arguments get_orders {F World}.
Arguments put_orders {F World} m.

Notation "'let!' x ':=' m 'in' k" := (bind m (fun x => k))
  (at level 10, x pattern, m at level 100, k at level 200).
Notation "'run!' m 'in' k" := (bind m (fun _ => k))
  (at level 10, m at level 100, k at level 200).

(** ** Parameters: the Python runtime and the collaborators outside the file *)

Class Runtime : Type := {
  (** Python's float *)
  F : Type;
  (** [float(s)] for a string, [None] when it raises [ValueError] *)
  float_of_str : string -> option F;
  (** [float(n)] for an integer, [None] when it raises [OverflowError] *)
  float_of_int : Z -> option F;
  (** float subtraction *)
  fsub : F -> F -> F;
  float_is_zero : F -> bool;
  (** [str(v)] for floats, containers and opaque objects *)
  repr_other : value F -> string;
  (** [urllib.parse.urljoin(base, url)] *)
  urljoin : value F -> string -> outcome string;
  (** [hmac.new(key, msg, hashlib.sha256).hexdigest()] *)
  hmac_sha256_hexdigest : string -> string -> string;
  (** The outside world: the exchange behind [AsyncHttpRequests.fetch] and
      the clock behind [tools.get_cur_timestamp_ms]. [fetch] returns the pair
      (success, error) of the transport's reply. *)
  World : Type;
  fetch :
    string -> string -> list (string * value F) -> World -> (value F * value F) * World;
  get_cur_timestamp_ms : World -> Z * World;
  (** Modelled from the spec: the defaults the constructor of [Order]
      (class of [aioquant.order], not part of the file) gives the attributes
      it is not passed. *)
  Order_default_remain : value F;
  Order_default_status : order_status;
  Order_default_utime : value F;
}.

Section Binance.

Context {R : Runtime}.

Local Abbreviation value := (value F).
Local Abbreviation Order := (Order F).
Local Abbreviation callback_arg := (callback_arg F).
Local Abbreviation effect := (effect F).
Local Abbreviation state := (state F World).
Local Abbreviation BinanceRestAPI := (BinanceRestAPI F).
Local Abbreviation BinanceTrade := (BinanceTrade F).
Local Abbreviation revoke_result := (revoke_result F).
Local Abbreviation M := (M F World).

(** *** Python builtins on values *)

(** truth value of an object, as tested by [if v:] and [not v] *)
Definition truthy (v : value) : bool :=
  match v with
  | VNone => false
  | VBool b => b
  | VInt z => negb (z =? 0)
  | VFloat f => negb (float_is_zero f)
  | VStr s => str_nonempty s
  | VList l => match l with [] => false | _ => true end
  | VDict d => match d with [] => false | _ => true end
  | VObj _ => true
  end.

(** [v == s] for a string literal [s] *)
Definition py_eq_str (v : value) (s : string) : bool :=
  match v with
  | VStr s' => String.eqb s' s
  | _ => false
  end.

(** [str(v)] *)
Definition py_str (v : value) : string :=
  match v with
  | VNone => "None"
  | VBool true => "True"
  | VBool false => "False"
  | VInt z => pretty z
  | VStr s => s
  | _ => repr_other v
  end.

(** [float(v)] *)
Definition py_float (v : value) : outcome F :=
  match v with
  | VFloat f => Done f
  | VInt z =>
      match float_of_int z with Some f => Done f | None => Raised OverflowError end
  | VBool b =>
      match float_of_int (if b then 1 else 0) with
      | Some f => Done f
      | None => Raised OverflowError
      end
  | VStr s =>
      match float_of_str s with Some f => Done f | None => Raised ValueError end
  | _ => Raised TypeError
  end.

(** [v[key]] for a string key *)
Definition py_item (v : value) (key : string) : outcome value :=
  match v with
  | VDict d =>
      match dict_lookup d key with
      | Some x => Done x
      | None => Raised (KeyError key)
      end
  | _ => Raised TypeError
  end.

(** [v.get(key)] *)
Definition py_get (v : value) (key : string) : outcome value :=
  match v with
  | VDict d =>
      match dict_lookup d key with
      | Some x => Done x
      | None => Done VNone
      end
  | _ => Raised AttributeError
  end.

(** the elements [for x in v] visits *)
Definition py_iter (v : value) : outcome (list value) :=
  match v with
  | VList l => Done l
  | VDict d => Done (map (fun kv => VStr (fst kv)) d)
  | VStr s => Done (map (fun c => VStr (String c EmptyString)) (String.list_ascii_of_string s))
  | _ => Raised TypeError
  end.

(** [s.encode()] *)
Definition py_encode (v : value) : outcome string :=
  match v with
  | VStr s => Done s
  | _ => Raised AttributeError
  end.

(** [kwargs[key]] and [kwargs.get(key)] on a keyword dictionary *)
Definition kwargs_item (kwargs : gmap string value) (key : string) : outcome value :=
  match kwargs !! key with
  | Some v => Done v
  | None => Raised (KeyError key)
  end.

Definition kwargs_get (kwargs : gmap string value) (key : string) : value :=
  match kwargs !! key with
  | Some v => v
  | None => VNone
  end.


(** attribute assignments [order.remain = v], [order.status = s],
    [order.utime = t] *)
Definition Order_set_remain (o : Order) (v : value) : Order :=
  mkOrder (platform o) (account o) (strategy o) (order_id o) (client_order_id o)
    (action o) (order_type_ o) (symbol o) (price o) (quantity o)
    v (status o) (ctime o) (utime o).

Definition Order_set_status (o : Order) (s : order_status) : Order :=
  mkOrder (platform o) (account o) (strategy o) (order_id o) (client_order_id o)
    (action o) (order_type_ o) (symbol o) (price o) (quantity o)
    (remain o) s (ctime o) (utime o).

Definition Order_set_utime (o : Order) (t : value) : Order :=
  mkOrder (platform o) (account o) (strategy o) (order_id o) (client_order_id o)
    (action o) (order_type_ o) (symbol o) (price o) (quantity o)
    (remain o) (status o) (ctime o) t.


(** [AsyncHttpRequests.fetch(method, url, headers=headers, ...)]: the reply
    comes from the world, and the call is recorded with its reply. *)
Definition AsyncHttpRequests_fetch (method url : string) (headers : list (string * value))
  : M (value * value) :=
  fun st =>
    let r := fetch method url headers (world st) in
    (Done (fst r),
     mkState (_orders st) (snd r)
       (history st ++ [Fetch method url headers (fst (fst r)) (snd (fst r))])).

Definition tools_get_cur_timestamp_ms : M Z :=
  fun st =>
    let r := get_cur_timestamp_ms (world st) in
    (Done (fst r), mkState (_orders st) (snd r) (history st)).

(** ** BinanceRestAPI *)


(** [BinanceRestAPI.__init__(self, access_key, secret_key, host)]: the
    parameters in the order of the signature. *)
Definition BinanceRestAPI_init (access_key secret_key host : value) : BinanceRestAPI :=
  {| api_host := host; api_access_key := access_key; api_secret_key := secret_key |}.

(** The canonical string: ["&".join(["=".join([str(k), str(v)]) ...])]. *)
Definition canonical_query (data : list (string * value)) : string :=
  match data with
  | [] => ""
  | _ => str_join "&" (map (fun kv => str_join "=" [fst kv; py_str (snd kv)]) data)
  end.

(** [BinanceRestAPI.request] *)
Definition BinanceRestAPI_request (self : BinanceRestAPI) (method uri : string)
  (params body headers : list (string * value)) (auth : bool) : M (value * value) :=
  let! url := lift (urljoin (api_host self) uri) in
  let data := [] in
  let data := match params with [] => data | _ => dict_update data params end in
  let data := match body with [] => data | _ => dict_update data body end in
  let query := canonical_query data in
  let! query :=
    (if auth && str_nonempty query then
       let! key := lift (py_encode (api_secret_key self)) in
       let signature := hmac_sha256_hexdigest key query in
       ret (query ++ "&signature=" ++ signature)
     else ret query) in
  let url := if str_nonempty query then url ++ "?" ++ query else url in
  let headers := dict_set headers "X-MBX-APIKEY" (api_access_key self) in
  let! reply := AsyncHttpRequests_fetch method url headers in
  let success := fst reply in
  let error := snd reply in
  ret (success, error).

(** The authenticated operations. *)
Definition BinanceRestAPI_get_user_account (self : BinanceRestAPI) : M (value * value) :=
  let uri := "/api/v3/account" in
  let! ts := tools_get_cur_timestamp_ms in
  let params := [("timestamp", VStr (pretty ts))] in
  BinanceRestAPI_request self "GET" uri params [] [] true.

Definition BinanceRestAPI_create_order (self : BinanceRestAPI)
  (action symbol price quantity client_order_id : value) : M (value * value) :=
  let uri := "/api/v3/order" in
  let! ts := tools_get_cur_timestamp_ms in
  let data :=
    [("symbol", symbol); ("side", action); ("type", VStr "LIMIT");
     ("timeInForce", VStr "GTC"); ("quantity", quantity); ("price", price);
     ("recvWindow", VStr "5000"); ("newOrderRespType", VStr "FULL");
     ("timestamp", VInt ts)] in
  let data :=
    if truthy client_order_id then dict_set data "newClientOrderId" client_order_id
    else data in
  BinanceRestAPI_request self "POST" uri [] data [] true.

Definition BinanceRestAPI_revoke_order (self : BinanceRestAPI)
  (symbol order_id client_order_id : value) : M (value * value) :=
  let uri := "/api/v3/order" in
  let! ts := tools_get_cur_timestamp_ms in
  let params := [("symbol", symbol); ("orderId", order_id); ("timestamp", VInt ts)] in
  let params :=
    if truthy client_order_id then dict_set params "origClientOrderId" client_order_id
    else params in
  BinanceRestAPI_request self "DELETE" uri params [] [] true.

Definition BinanceRestAPI_get_order_status (self : BinanceRestAPI)
  (symbol order_id client_order_id : value) : M (value * value) :=
  let uri := "/api/v3/order" in
  let! ts := tools_get_cur_timestamp_ms in
  let params :=
    [("symbol", symbol); ("orderId", VStr (py_str order_id));
     ("origClientOrderId", client_order_id); ("timestamp", VInt ts)] in
  BinanceRestAPI_request self "GET" uri params [] [] true.

Definition BinanceRestAPI_get_all_orders (self : BinanceRestAPI) (symbol : value)
  : M (value * value) :=
  let uri := "/api/v3/allOrders" in
  let! ts := tools_get_cur_timestamp_ms in
  let params := [("symbol", symbol); ("timestamp", VInt ts)] in
  BinanceRestAPI_request self "GET" uri params [] [] true.

Definition BinanceRestAPI_get_open_orders (self : BinanceRestAPI) (symbol : value)
  : M (value * value) :=
  let uri := "/api/v3/openOrders" in
  let! ts := tools_get_cur_timestamp_ms in
  let params := [("symbol", symbol); ("timestamp", VInt ts)] in
  BinanceRestAPI_request self "GET" uri params [] [] true.

Definition BinanceRestAPI_get_futures_transfer (self : BinanceRestAPI)
  (start_time end_time current size : value) : M (value * value) :=
  let uri := "/sapi/v1/futures/transfer" in
  let! ts := tools_get_cur_timestamp_ms in
  let params :=
    [("asset", VStr "USDT"); ("startTime", start_time); ("current", current);
     ("size", size); ("timestamp", VInt ts)] in
  let params :=
    match end_time with
    | VNone => params
    | _ => dict_set params "endTime" end_time
    end in
  BinanceRestAPI_request self "GET" uri params [] [] true.

Definition BinanceRestAPI_futures_transfer (self : BinanceRestAPI) (amount t : value)
  : M (value * value) :=
  let uri := "/sapi/v1/futures/transfer" in
  let! ts := tools_get_cur_timestamp_ms in
  let params :=
    [("asset", VStr "USDT"); ("amount", amount); ("type", t); ("timestamp", VInt ts)] in
  BinanceRestAPI_request self "POST" uri params [] [] true.

(** ** BinanceTrade *)


(** [BinanceTrade.__init__(self, **kwargs)]. [SingleTask.run(callback, ...)]
    and [LoopRunTask.register(...)] hand a task to the scheduler; they are
    recorded as effects. *)
Definition BinanceTrade_init (kwargs : gmap string value) : M BinanceTrade :=
  let e : option string := None in
  let e := if negb (truthy (kwargs_get kwargs "account"))
           then Some "param account miss" else e in
  let e := if negb (truthy (kwargs_get kwargs "strategy"))
           then Some "param strategy miss" else e in
  let e := if negb (truthy (kwargs_get kwargs "symbol"))
           then Some "param symbol miss" else e in
  let kwargs := if negb (truthy (kwargs_get kwargs "host"))
                then <["host" := VStr "https://api.binance.com"]> kwargs else kwargs in
  let kwargs := if negb (truthy (kwargs_get kwargs "wss"))
                then <["wss" := VStr "wss://stream.binance.com:9443"]> kwargs else kwargs in
  let e := if negb (truthy (kwargs_get kwargs "access_key"))
           then Some "param access_key miss" else e in
  let e := if negb (truthy (kwargs_get kwargs "secret_key"))
           then Some "param secret_key miss" else e in
  run! (match e with
        | Some msg =>
            let! _ := lift (kwargs_item kwargs "error_callback") in
            run! emit (Callback error_callback [AError msg]) in
            let! _ := lift (kwargs_item kwargs "init_callback") in
            emit (Callback init_callback [AValue (VBool false)])
        | None => ret tt
        end) in
  let! account := lift (kwargs_item kwargs "account") in
  let! strategy := lift (kwargs_item kwargs "strategy") in
  let! platform := lift (kwargs_item kwargs "platform") in
  let! symbol := lift (kwargs_item kwargs "symbol") in
  let! host := lift (kwargs_item kwargs "host") in
  let! wss := lift (kwargs_item kwargs "wss") in
  let! access_key := lift (kwargs_item kwargs "access_key") in
  let! secret_key := lift (kwargs_item kwargs "secret_key") in
  let order_update_cb := kwargs_get kwargs "order_update_callback" in
  let init_cb := kwargs_get kwargs "init_callback" in
  let error_cb := kwargs_get kwargs "error_callback" in
  let! raw_symbol :=
    lift (match symbol with
          | VStr s => Done (str_remove "/"%char s)
          | _ => Raised AttributeError
          end) in
  run! put_orders ∅ in
  let rest_api := BinanceRestAPI_init host access_key secret_key in
  run! emit (LoopRun "_reset_listen_key" (60 * 30)) in
  run! emit (Task "_init_websocket") in
  run! emit (LoopRun "_send_heartbeat_msg" 10) in
  ret {| _account := account; _strategy := strategy; _platform := platform;
         _symbol := symbol; _host := host; _wss := wss;
         _access_key := access_key; _secret_key := secret_key;
         _order_update_callback := order_update_cb; _init_callback := init_cb;
         _error_callback := error_cb; _raw_symbol := raw_symbol;
         _rest_api := rest_api |}.

(** The status chain of [connected_callback] (lines 881-896): [None] is the
    final [else]. *)
Definition connected_callback_status (st : value) : option order_status :=
  if py_eq_str st "NEW" then Some ORDER_STATUS_SUBMITTED
  else if py_eq_str st "PARTIALLY_FILLED" then Some ORDER_STATUS_PARTIAL_FILLED
  else if py_eq_str st "FILLED" then Some ORDER_STATUS_FILLED
  else if py_eq_str st "CANCELED" then Some ORDER_STATUS_CANCELED
  else if py_eq_str st "REJECTED" then Some ORDER_STATUS_FAILED
  else if py_eq_str st "EXPIRED" then Some ORDER_STATUS_FAILED
  else None.

(** The body of the loop of [connected_callback] for one snapshot entry. *)
Definition connected_callback_entry (self : BinanceTrade) (order_info : value) : M unit :=
  let! st := lift (py_item order_info "status") in
  match connected_callback_status st with
  | None =>
      emit (Callback error_callback [AValue (VStr "order status error.")])
  | Some status =>
      let! oid := lift (py_item order_info "orderId") in
      let order_id := py_str oid in
      let! client_order_id := lift (py_item order_info "clientOrderId") in
      let! side := lift (py_item order_info "side") in
      let! type := lift (py_item order_info "type") in
      let! price := lift (py_item order_info "price") in
      let! origQty := lift (py_item order_info "origQty") in
      let! origQty' := lift (py_item order_info "origQty") in
      let! q := lift (py_float origQty') in
      let! executedQty := lift (py_item order_info "executedQty") in
      let! z := lift (py_float executedQty) in
      let! time := lift (py_item order_info "time") in
      let! updateTime := lift (py_item order_info "updateTime") in
      let order :=
        {| platform := _platform self; account := _account self;
           strategy := _strategy self; order_id := order_id;
           client_order_id := client_order_id;
           action := if py_eq_str side "BUY" then ORDER_ACTION_BUY else ORDER_ACTION_SELL;
           order_type_ := if py_eq_str type "LIMIT" then ORDER_TYPE_LIMIT
                          else ORDER_TYPE_MARKET;
           symbol := _symbol self; price := price; quantity := origQty;
           remain := VFloat (fsub q z); status := status;
           ctime := time; utime := updateTime |} in
      let! orders := get_orders in
      run! put_orders (<[order_id := order]> orders) in
      run! emit (OrdersSet order_id) in
      emit (Callback order_update_callback [AOrder order])
  end.

Fixpoint connected_callback_loop (self : BinanceTrade) (order_infos : list value)
  : M unit :=
  match order_infos with
  | [] => ret tt
  | order_info :: rest =>
      run! connected_callback_entry self order_info in
      connected_callback_loop self rest
  end.


(** [BinanceTrade.create_order(self, action, price, quantity, *args, **kwargs)] *)
Definition BinanceTrade_create_order (self : BinanceTrade)
  (action price quantity : value) (args : list value) (kwargs : gmap string value)
  : M (value * value) :=
  let! client_order_id := lift (kwargs_item kwargs "client_order_id") in
  let! reply :=
    BinanceRestAPI_create_order (_rest_api self) action (VStr (_raw_symbol self))
      price quantity client_order_id in
  let result := fst reply in
  let error := snd reply in
  if truthy error then
    run! emit (Callback error_callback [AValue error]) in
    ret (VNone, error)
  else
    let! oid := lift (py_item result "orderId") in
    let order_id := VStr (py_str oid) in
    ret (order_id, VNone).


(** The loop of the zero-argument mode (lines 958-963). *)
Fixpoint revoke_order_all_loop (self : BinanceTrade) (order_infos : list value)
  : M revoke_result :=
  match order_infos with
  | [] => ret (RevokeAll true VNone)
  | order_info :: rest =>
      let! oid := lift (py_item order_info "orderId") in
      let! reply :=
        BinanceRestAPI_revoke_order (_rest_api self) (VStr (_raw_symbol self)) oid VNone in
      let error := snd reply in
      if truthy error then
        run! emit (Callback error_callback [AValue error]) in
        ret (RevokeAll false error)
      else revoke_order_all_loop self rest
  end.

(** The loop of the multiple-ids mode (lines 977-984). *)
Fixpoint revoke_order_many_loop (self : BinanceTrade) (order_ids : list value)
  (success : list value) (error : list (value * value)) : M revoke_result :=
  match order_ids with
  | [] => ret (RevokeMany success error)
  | order_id :: rest =>
      let! reply :=
        BinanceRestAPI_revoke_order (_rest_api self) (VStr (_raw_symbol self))
          order_id VNone in
      let e := snd reply in
      if truthy e then
        run! emit (Callback error_callback [AValue e]) in
        revoke_order_many_loop self rest success (error ++ [(order_id, e)])
      else revoke_order_many_loop self rest (success ++ [order_id]) error
  end.

(** [BinanceTrade.revoke_order(self, *order_ids)] *)
Definition BinanceTrade_revoke_order (self : BinanceTrade) (order_ids : list value)
  : M revoke_result :=
  match order_ids with
  | [] =>
      let! reply :=
        BinanceRestAPI_get_open_orders (_rest_api self) (VStr (_raw_symbol self)) in
      let order_infos := fst reply in
      let error := snd reply in
      if truthy error then
        run! emit (Callback error_callback [AValue error]) in
        ret (RevokeAll false error)
      else
        let! rows := lift (py_iter order_infos) in
        revoke_order_all_loop self rows
  | [order_id] =>
      let! reply :=
        BinanceRestAPI_revoke_order (_rest_api self) (VStr (_raw_symbol self))
          order_id VNone in
      let error := snd reply in
      if truthy error then
        run! emit (Callback error_callback [AValue error]) in
        ret (RevokeOne order_id error)
      else ret (RevokeOne order_id VNone)
  | _ => revoke_order_many_loop self order_ids [] []
  end.

(** The status chain of [process] (lines 1013-1028). *)
Definition process_status (st : value) : option order_status :=
  if py_eq_str st "NEW" then Some ORDER_STATUS_SUBMITTED
  else if py_eq_str st "PARTIALLY_FILLED" then Some ORDER_STATUS_PARTIAL_FILLED
  else if py_eq_str st "FILLED" then Some ORDER_STATUS_FILLED
  else if py_eq_str st "CANCELED" then Some ORDER_STATUS_CANCELED
  else if py_eq_str st "REJECTED" then Some ORDER_STATUS_FAILED
  else if py_eq_str st "EXPIRED" then Some ORDER_STATUS_FAILED
  else None.

(** [status in [ORDER_STATUS_FAILED, ORDER_STATUS_CANCELED, ORDER_STATUS_FILLED]] *)
Definition status_is_terminal (status : order_status) : bool :=
  bool_decide (status ∈ [ORDER_STATUS_FAILED; ORDER_STATUS_CANCELED; ORDER_STATUS_FILLED]).

(** [self._orders.pop(order_id)] *)
Definition orders_pop (order_id : string) : M Order :=
  let! orders := get_orders in
  match orders !! order_id with
  | Some o =>
      run! put_orders (delete order_id orders) in
      run! emit (OrdersPop order_id) in
      ret o
  | None => raise (KeyError order_id)
  end.

(** An attribute assignment on the order object held in the mapping under
    [order_id]: the mapping sees the new attribute value. *)
Definition orders_store (order_id : string) (o : Order) : M unit :=
  let! orders := get_orders in
  put_orders (<[order_id := o]> orders).

(** [BinanceTrade.process(self, msg)] *)
Definition BinanceTrade_process (self : BinanceTrade) (msg : value) : M unit :=
  let! e := lift (py_get msg "e") in
  if py_eq_str e "executionReport" then
    let! s := lift (py_item msg "s") in
    if negb (py_eq_str s (_raw_symbol self)) then ret tt
    else
      let! i := lift (py_item msg "i") in
      let order_id := py_str i in
      let! x := lift (py_item msg "X") in
      match process_status x with
      | None =>
          emit (Callback error_callback [AValue (VStr "order status error.")])
      | Some status =>
          let! orders := get_orders in
          let! order :=
            (match orders !! order_id with
             | Some order => ret order
             | None =>
                 let! c := lift (py_item msg "c") in
                 let! side := lift (py_item msg "S") in
                 let! o := lift (py_item msg "o") in
                 let! p := lift (py_item msg "p") in
                 let! q := lift (py_item msg "q") in
                 let! created := lift (py_item msg "O") in
                 let order :=
                   {| platform := _platform self; account := _account self;
                      strategy := _strategy self; order_id := order_id;
                      client_order_id := c;
                      action := if py_eq_str side "BUY" then ORDER_ACTION_BUY
                                else ORDER_ACTION_SELL;
                      order_type_ := if py_eq_str o "LIMIT" then ORDER_TYPE_LIMIT
                                     else ORDER_TYPE_MARKET;
                      symbol := _symbol self; price := p; quantity := q;
                      remain := Order_default_remain;
                      status := Order_default_status;
                      ctime := created; utime := Order_default_utime |} in
                 run! put_orders (<[order_id := order]> orders) in
                 run! emit (OrdersSet order_id) in
                 ret order
             end) in
          let! q := lift (py_item msg "q") in
          let! fq := lift (py_float q) in
          let! z := lift (py_item msg "z") in
          let! fz := lift (py_float z) in
          let order := Order_set_remain order (VFloat (fsub fq fz)) in
          run! orders_store order_id order in
          let order := Order_set_status order status in
          run! orders_store order_id order in
          let! event_time := lift (py_item msg "T") in
          let order := Order_set_utime order event_time in
          run! orders_store order_id order in
          run! emit (Callback order_update_callback [AOrder order]) in
          if status_is_terminal status then
            run! orders_pop order_id in ret tt
          else ret tt
      end
  else ret tt.

End Binance.

(** ** Vocabulary of the specification *)

Section Vocabulary.

Context {R : Runtime}.

Local Abbreviation value := (value F).
Local Abbreviation Order := (Order F).
Local Abbreviation callback_arg := (callback_arg F).
Local Abbreviation effect := (effect F).
Local Abbreviation state := (state F World).
Local Abbreviation BinanceRestAPI := (BinanceRestAPI F).
Local Abbreviation BinanceTrade := (BinanceTrade F).
Local Abbreviation revoke_result := (revoke_result F).
Local Abbreviation M := (M F World).

(** The stream transport delivers [on_message] once per inbound frame, in
    arrival order: processing a sequence of messages is processing them one
    after the other. *)
Fixpoint process_all (self : BinanceTrade) (msgs : list value) : M unit :=
  match msgs with
  | [] => ret tt
  | msg :: rest => bind (BinanceTrade_process self msg) (fun _ => process_all self rest)
  end.

(** The callbacks dispatched in a history, in order. *)
Definition callbacks_of (h : list effect) : list (callback * list callback_arg) :=
  omap (fun e => match e with Callback cb args => Some (cb, args) | _ => None end) h.

(** The HTTP calls of a history, in order. *)
Definition fetches_of (h : list effect) : list effect :=
  List.filter (fun e => match e with Fetch _ _ _ _ _ => true | _ => false end) h.

Definition reply_success (e : effect) : value :=
  match e with Fetch _ _ _ success _ => success | _ => VNone end.

Definition reply_error (e : effect) : value :=
  match e with Fetch _ _ _ _ error => error | _ => VNone end.

(** A REST call failed when its reply carries an error. *)
Definition call_failed (e : effect) : bool := truthy (reply_error e).

(** The URL of a signed request: base, canonical query, signature. *)
Definition signed_url (base key : string) (data : list (string * value)) : string :=
  base ++ "?" ++ canonical_query data ++ "&signature="
    ++ hmac_sha256_hexdigest key (canonical_query data).

(** The client can issue requests: its host joins with a path and its
    secret is a string. *)
Definition rest_usable (api : BinanceRestAPI) : Prop :=
  (exists key, api_secret_key api = VStr key) /\
  (forall uri, exists url, urljoin (api_host api) uri = Done url).

(** [e] is the cancel REST call for [order_id]: a signed DELETE of
    /api/v3/order for the configured symbol and that order id. *)
Definition is_cancel_call (self : BinanceTrade) (order_id : value) (e : effect) : Prop :=
  exists base key ts success error,
    urljoin (api_host (_rest_api self)) "/api/v3/order" = Done base /\
    api_secret_key (_rest_api self) = VStr key /\
    e = Fetch "DELETE"
          (signed_url base key
             [("symbol", VStr (_raw_symbol self)); ("orderId", order_id);
              ("timestamp", VInt ts)])
          [("X-MBX-APIKEY", api_access_key (_rest_api self))] success error.

(** The partition of cancelled ids by the outcome of their calls. *)
Definition succeeded_ids (ids : list value) (calls : list effect) : list value :=
  map fst (List.filter (fun p => negb (call_failed (snd p))) (zip ids calls)).

Definition failed_pairs (ids : list value) (calls : list effect) : list (value * value) :=
  map (fun p => (fst p, reply_error (snd p)))
    (List.filter (fun p => call_failed (snd p)) (zip ids calls)).

(** The error callbacks a batch of cancel calls gives rise to. *)
Definition failure_callbacks (calls : list effect) : list (callback * list callback_arg) :=
  map (fun c => (error_callback, [AValue (reply_error c)]))
    (List.filter call_failed calls).

(** Claim C3 as the specification states it: with no argument, every open
    order of the fetched list receives its cancel call, and the result is
    success exactly when every cancel succeeds. *)
Definition revoke_all_cancels_each_open_order (self : BinanceTrade) (st : state) : Prop :=
  forall order_infos error st1 rows ids,
    BinanceRestAPI_get_open_orders (_rest_api self) (VStr (_raw_symbol self)) st
      = (Done (order_infos, error), st1) ->
    truthy error = false ->
    py_iter order_infos = Done rows ->
    Forall2 (fun row id => py_item row "orderId" = Done id) rows ids ->
    exists r st' calls,
      BinanceTrade_revoke_order self [] st = (Done r, st') /\
      fetches_of (history st') = (fetches_of (history st1) ++ calls)%list /\
      Forall2 (is_cancel_call self) ids calls /\
      (r = RevokeAll true VNone <-> Forall (fun c => call_failed c = false) calls).

(** The exchange statuses the connector recognizes. *)
Definition exchange_statuses : list string :=
  ["NEW"; "PARTIALLY_FILLED"; "FILLED"; "CANCELED"; "REJECTED"; "EXPIRED"].

Definition unrecognized_status (v : value) : Prop :=
  forall s, s ∈ exchange_statuses -> v <> VStr s.




Definition is_done {A : Type} (o : outcome A) : bool :=
  match o with Done _ => true | Raised _ => false end.







(** The order [process] leaves for a report: the order already in the
    mapping, or a new one from the report's fields, with [remain], [status]
    and [utime] overwritten. *)
Definition reported_order (self : BinanceTrade) (orders : gmap string Order)
  (id : string) (c side o p q created : value) (rem : F) (s : order_status) (t : value)
  : Order :=
  let base :=
    match orders !! id with
    | Some order => order
    | None =>
        mkOrder (_platform self) (_account self) (_strategy self) id c
          (if py_eq_str side "BUY" then ORDER_ACTION_BUY else ORDER_ACTION_SELL)
          (if py_eq_str o "LIMIT" then ORDER_TYPE_LIMIT else ORDER_TYPE_MARKET)
          (_symbol self) p q Order_default_remain Order_default_status created
          Order_default_utime
    end in
  Order_set_utime (Order_set_status (Order_set_remain base (VFloat rem)) s) t.

(** An execution report for the configured symbol and the order [id], with a
    recognized status and the fields [process] reads, quantities [float]
    accepts. *)
Definition execution_report_for (self : BinanceTrade) (id : string) (msg : value) : bool :=
  match py_get msg "e", py_item msg "s", py_item msg "i", py_item msg "X" with
  | Done e, Done s, Done i, Done x =>
      py_eq_str e "executionReport" && py_eq_str s (_raw_symbol self)
      && String.eqb (py_str i) id
      && match process_status x with Some _ => true | None => false end
      && is_done (py_item msg "c") && is_done (py_item msg "S")
      && is_done (py_item msg "o") && is_done (py_item msg "p")
      && is_done (py_item msg "O") && is_done (py_item msg "T")
      && match py_item msg "q" with
         | Done q => is_done (py_float q)
         | Raised _ => false
         end
      && match py_item msg "z" with
         | Done z => is_done (py_float z)
         | Raised _ => false
         end
  | _, _, _, _ => false
  end.

(** The keywords the constructor validates. *)
Definition validated_keywords : list string :=
  ["account"; "strategy"; "symbol"; "access_key"; "secret_key"].

(** The messages of the validation errors. *)
Definition validation_messages : list string :=
  ["param account miss"; "param strategy miss"; "param symbol miss";
   "param access_key miss"; "param secret_key miss"].

End Vocabulary.

(** ** A concrete runtime *)

(** *** HMAC-SHA256 (FIPS 180-4, RFC 2104) on bytes *)

(** 32-bit words are integers with the wrap-around written out. *)
Definition w32 (x : Z) : Z := x mod 2 ^ 32.

Definition rotr (n x : Z) : Z := w32 (Z.lor (Z.shiftr x n) (Z.shiftl x (32 - n))).

(** Integer cube root below 2^36, bit by bit. *)
Definition icbrt (n : Z) : Z :=
  fold_left (fun r b => let c := r + 2 ^ b in if c * c * c <=? n then c else r)
    (map Z.of_nat (rev (seq 0 36))) 0.

Definition is_prime (p : Z) : bool :=
  (2 <=? p)
  && forallb (fun d => negb (p mod d =? 0) || (p <=? d)) (map Z.of_nat (seq 2 18)).

(** The first 64 primes. *)
Definition first_primes : list Z :=
  Eval vm_compute in List.filter is_prime (map Z.of_nat (seq 2 310)).

(** The round constants: the first 32 bits of the fractional parts of the
    cube roots of the first 64 primes; the initial hash: the same of the
    square roots of the first 8. *)
Definition sha256_K : list Z :=
  Eval vm_compute in map (fun p => w32 (icbrt (p * 2 ^ 96))) first_primes.

Definition sha256_H0 : list Z :=
  Eval vm_compute in map (fun p => w32 (Z.sqrt (p * 2 ^ 64))) (take 8 first_primes).

Definition bytes_of_string (s : string) : list Z :=
  map (fun c => Z.of_nat (nat_of_ascii c)) (String.list_ascii_of_string s).

(** the [n] low bytes of [x], most significant first *)
Fixpoint be_bytes (n : nat) (x : Z) : list Z :=
  match n with
  | O => []
  | S k => (Z.shiftr x (8 * Z.of_nat k)) mod 256 :: be_bytes k x
  end.

Definition sha256_pad (msg : list Z) : list Z :=
  let len := Z.of_nat (List.length msg) in
  let zeros := Z.to_nat ((55 - len) mod 64) in
  (msg ++ [128] ++ replicate zeros 0 ++ be_bytes 8 (8 * len))%list.

Fixpoint be_words (n : nat) (bs : list Z) : list Z :=
  match n, bs with
  | S k, a :: b :: c :: d :: rest =>
      (a * 2 ^ 24 + b * 2 ^ 16 + c * 2 ^ 8 + d) :: be_words k rest
  | _, _ => []
  end.

Definition word_at (l : list Z) (i : nat) : Z := nth i l 0.

(** the message schedule: [n] more words after those of [w] *)
Fixpoint sha256_schedule (n : nat) (w : list Z) : list Z :=
  match n with
  | O => w
  | S k =>
      let t := List.length w in
      let w15 := word_at w (t - 15) in
      let w2 := word_at w (t - 2) in
      let s0 := Z.lxor (Z.lxor (rotr 7 w15) (rotr 18 w15)) (Z.shiftr w15 3) in
      let s1 := Z.lxor (Z.lxor (rotr 17 w2) (rotr 19 w2)) (Z.shiftr w2 10) in
      sha256_schedule k
        (w ++ [w32 (word_at w (t - 16) + s0 + word_at w (t - 7) + s1)])%list
  end.

Definition sha256_round (h : list Z) (kw : Z * Z) : list Z :=
  match h with
  | [a; b; c; d; e; f; g; hh] =>
      let S1 := Z.lxor (Z.lxor (rotr 6 e) (rotr 11 e)) (rotr 25 e) in
      let ch := Z.lxor (Z.land e f) (Z.land (Z.lxor e (2 ^ 32 - 1)) g) in
      let t1 := w32 (hh + S1 + ch + fst kw + snd kw) in
      let S0 := Z.lxor (Z.lxor (rotr 2 a) (rotr 13 a)) (rotr 22 a) in
      let maj := Z.lxor (Z.lxor (Z.land a b) (Z.land a c)) (Z.land b c) in
      let t2 := w32 (S0 + maj) in
      [w32 (t1 + t2); a; b; c; w32 (d + t1); e; f; g]
  | _ => h
  end.

Definition sha256_compress (h : list Z) (block : list Z) : list Z :=
  let w := sha256_schedule 48 (be_words 16 block) in
  let h' := fold_left sha256_round (zip sha256_K w) h in
  zip_with (fun x y => w32 (x + y)) h h'.

Fixpoint sha256_blocks (n : nat) (bs : list Z) : list (list Z) :=
  match n with
  | O => []
  | S k =>
      match bs with
      | [] => []
      | _ => take 64 bs :: sha256_blocks k (drop 64 bs)
      end
  end.

Definition sha256 (msg : list Z) : list Z :=
  let p := sha256_pad msg in
  let h := fold_left sha256_compress (sha256_blocks (List.length p) p) sha256_H0 in
  concat (map (be_bytes 4) h).

Definition hex_digit (n : Z) : ascii :=
  ascii_of_nat (Z.to_nat (if n <? 10 then 48 + n else 87 + n)).

Definition hexdigest (bs : list Z) : string :=
  String.string_of_list_ascii
    (concat (map (fun b => [hex_digit (b / 16); hex_digit (b mod 16)]) bs)).

Definition hmac_sha256 (key msg : list Z) : list Z :=
  let key := if 64 <? Z.of_nat (List.length key) then sha256 key else key in
  let key := (key ++ replicate (64 - List.length key) 0)%list in
  let ipad := map (fun b => Z.lxor b 54) key in
  let opad := map (fun b => Z.lxor b 92) key in
  sha256 (opad ++ sha256 (ipad ++ msg))%list.

Definition hmac_sha256_hex (key msg : string) : string :=
  hexdigest (hmac_sha256 (bytes_of_string key) (bytes_of_string msg)).

(** *** Numbers, URLs and a scripted exchange *)

(** Quantities as fixed-point numbers of 8 decimals stand in for floats in
    the examples: ["1.5"] reads as 150000000. *)
Definition digit_of (c : ascii) : option Z :=
  let n := Z.of_nat (nat_of_ascii c) in
  if (48 <=? n) && (n <=? 57) then Some (n - 48) else None.

Fixpoint parse_fixed (s : string) (frac : option nat) (acc : Z) : option Z :=
  match s with
  | EmptyString =>
      match frac with
      | None => Some (acc * 10 ^ 8)
      | Some k => Some (acc * 10 ^ (8 - Z.of_nat k))
      end
  | String c rest =>
      if Ascii.eqb c "."%char then
        match frac with
        | None => parse_fixed rest (Some O) acc
        | Some _ => None
        end
      else
        match digit_of c, frac with
        | Some d, None => parse_fixed rest None (acc * 10 + d)
        | Some d, Some k =>
            if (k <? 8)%nat then parse_fixed rest (Some (S k)) (acc * 10 + d) else None
        | None, _ => None
        end
  end.

Definition fixed_of_str (s : string) : option Z :=
  match s with
  | EmptyString => None
  | _ => parse_fixed s None 0
  end.

(** [urljoin] of an origin and an absolute path: the path replaces the
    base's; a base with no scheme contributes nothing. *)
Definition origin_urljoin (base : value Z) (uri : string) : outcome string :=
  match base with
  | VStr b => if String.prefix "http" b then Done (b ++ uri) else Done uri
  | _ => Raised TypeError
  end.

(** The scripted exchange: a clock and the replies still to be given, one
    per fetch, in order. *)
Definition script : Type := Z * list (value Z * value Z).

Definition script_fetch (method url : string) (headers : list (string * value Z))
  (w : script) : (value Z * value Z) * script :=
  match snd w with
  | reply :: rest => (reply, (fst w, rest))
  | [] => ((VNone, VStr "connection refused"), w)
  end.

Definition script_clock (w : script) : Z * script := (fst w, (fst w + 1, snd w)).

#[local] Instance scripted : Runtime := {|
  F := Z;
  float_of_str := fixed_of_str;
  float_of_int := fun n => Some (n * 10 ^ 8);
  fsub := Z.sub;
  float_is_zero := fun f => f =? 0;
  repr_other := fun _ => "<object>";
  urljoin := origin_urljoin;
  hmac_sha256_hexdigest := hmac_sha256_hex;
  World := script;
  fetch := script_fetch;
  get_cur_timestamp_ms := script_clock;
  Order_default_remain := VInt 0;
  Order_default_status := ORDER_STATUS_SUBMITTED;
  Order_default_utime := VNone;
|}.

(** A trade object's keywords, and the state before construction. *)
Definition example_kwargs : gmap string (value Z) :=
  list_to_map
    [("account", VStr "main"); ("strategy", VStr "grid"); ("platform", VStr "binance");
     ("symbol", VStr "BTC/USDT"); ("access_key", VStr "AK"); ("secret_key", VStr "SK");
     ("order_update_callback", VObj "on_order_update");
     ("init_callback", VObj "on_init"); ("error_callback", VObj "on_error")].

Definition state_with (replies : list (value Z * value Z)) : state Z script :=
  mkState ∅ (1600000000000, replies) [].

(** The trade object the constructor returns for [example_kwargs]. *)
Definition example_trade : BinanceTrade Z :=
  match fst (BinanceTrade_init example_kwargs (state_with [])) with
  | Done self => self
  | Raised _ =>
      mkBinanceTrade VNone VNone VNone VNone VNone VNone VNone VNone VNone VNone VNone
        "" (BinanceRestAPI_init VNone VNone VNone)
  end.

(** A trade object whose REST client is wired as the signature of
    [BinanceRestAPI.__init__] asks, for the properties of the operations
    that need a working client. *)
Definition wired_trade : BinanceTrade Z :=
  mkBinanceTrade (VStr "main") (VStr "grid") (VStr "binance") (VStr "BTC/USDT")
    (VStr "https://api.binance.com") (VStr "wss://stream.binance.com:9443")
    (VStr "AK") (VStr "SK") (VObj "on_order_update") (VObj "on_init") (VObj "on_error")
    "BTCUSDT"
    (BinanceRestAPI_init (VStr "AK") (VStr "SK") (VStr "https://api.binance.com")).

Definition example_row (id : Z) (st orig executed : string) : value Z :=
  VDict [("orderId", VInt id); ("clientOrderId", VStr "c"); ("side", VStr "BUY");
         ("type", VStr "LIMIT"); ("price", VStr "100.0"); ("origQty", VStr orig);
         ("executedQty", VStr executed); ("status", VStr st);
         ("time", VInt 1); ("updateTime", VInt 2)].

Definition example_report (sym : string) (id : Z) (st q z : string) (t : Z) : value Z :=
  VDict [("e", VStr "executionReport"); ("s", VStr sym); ("i", VInt id);
         ("c", VStr "c"); ("S", VStr "BUY"); ("o", VStr "LIMIT"); ("p", VStr "100.0");
         ("q", VStr q); ("z", VStr z); ("X", VStr st); ("O", VInt 1); ("T", VInt t)].

(** Two open orders, and the cancel of the first one is rejected. *)
Definition two_open_orders_first_cancel_fails : state Z script :=
  state_with
    [(VList [example_row 1 "NEW" "1.0" "0.0"; example_row 2 "NEW" "1.0" "0.0"], VNone);
     (VNone, VStr "rejected")].

(** The first cancel is accepted and the second one is rejected. *)
Definition second_cancel_fails : state Z script :=
  state_with [(VDict [("orderId", VInt 1)], VNone); (VNone, VStr "rejected")].


(** The canonical query of the open-orders call at the first clock tick. *)
Definition open_orders_query : string := "symbol=BTCUSDT&timestamp=1600000000000".

(** ** Properties *)

Section Properties.

Context {R : Runtime}.

Local Abbreviation value := (value F).
Local Abbreviation Order := (Order F).
Local Abbreviation callback_arg := (callback_arg F).
Local Abbreviation effect := (effect F).
Local Abbreviation state := (state F World).
Local Abbreviation BinanceRestAPI := (BinanceRestAPI F).
Local Abbreviation BinanceTrade := (BinanceTrade F).
Local Abbreviation revoke_result := (revoke_result F).
Local Abbreviation M := (M F World).

(** *** The monad laws used to run the methods step by step *)

Lemma bind_lift_done {A B : Type} (o : outcome A) (a : A) (k : A -> M B) (st : state) :
  o = Done a -> bind (lift o) k st = k a st.
Proof. intros ->. reflexivity. Qed.

Lemma bind_lift_raised {A B : Type} (o : outcome A) (e : exn) (k : A -> M B) (st : state) :
  o = Raised e -> bind (lift o) k st = (Raised e, st).
Proof. intros ->. reflexivity. Qed.

Lemma bind_emit {B : Type} (e : effect) (k : unit -> M B) (st : state) :
  bind (emit e) k st = k tt (mkState (_orders st) (world st) (history st ++ [e])).
Proof. reflexivity. Qed.

Lemma bind_get_orders {B : Type} (k : gmap string Order -> M B) (st : state) :
  bind get_orders k st = k (_orders st) st.
Proof. reflexivity. Qed.

Lemma bind_put_orders {B : Type} (m : gmap string Order) (k : unit -> M B) (st : state) :
  bind (put_orders m) k st = k tt (mkState m (world st) (history st)).
Proof. reflexivity. Qed.

Lemma bind_ret {A B : Type} (a : A) (k : A -> M B) (st : state) :
  bind (ret a) k st = k a st.
Proof. reflexivity. Qed.

Lemma bind_assoc {A B C : Type} (m : M A) (k : A -> M B) (k' : B -> M C) (st : state) :
  bind (bind m k) k' st = bind m (fun a => bind (k a) k') st.
Proof. unfold bind. destruct (m st) as [[a|e] st']; reflexivity. Qed.

Lemma bind_orders_store {B : Type} (id : string) (o : Order) (k : unit -> M B) (st : state) :
  bind (orders_store id o) k st
  = k tt (mkState (<[id := o]> (_orders st)) (world st) (history st)).
Proof. reflexivity. Qed.

Lemma bind_orders_pop {B : Type} (id : string) (o : Order) (k : Order -> M B) (st : state) :
  _orders st !! id = Some o ->
  bind (orders_pop id) k st
  = k o (mkState (delete id (_orders st)) (world st) (history st ++ [OrdersPop id])).
Proof.
  intros H. unfold orders_pop. rewrite bind_assoc, bind_get_orders, H.
  rewrite bind_assoc, bind_put_orders, bind_assoc, bind_emit, bind_ret. reflexivity.
Qed.

(** Run the deterministic steps at the head of a computation. *)
Ltac mrun :=
  repeat first
    [ rewrite bind_assoc | rewrite bind_ret | rewrite bind_emit | rewrite bind_get_orders
    | rewrite bind_put_orders | rewrite bind_orders_store
    | rewrite (bind_lift_done (Done _) _ _ _ eq_refl) ];
  cbn [_orders world history].

(** Case analysis on the next step that may raise, in a goal about a run
    that returns. *)
Ltac mcase :=
  mrun;
  match goal with
  | |- context [bind (lift ?o) _ _] =>
      let H := fresh "Hstep" in
      destruct o eqn:H;
      [ rewrite (bind_lift_done _ _ _ _ eq_refl)
      | rewrite (bind_lift_raised _ _ _ _ eq_refl); intros [=] ]
  end.

(** *** Histories and values *)

Lemma fetches_of_app (h1 h2 : list effect) :
  fetches_of (h1 ++ h2) = (fetches_of h1 ++ fetches_of h2)%list.
Proof. apply List.filter_app. Qed.

Lemma callbacks_of_app (h1 h2 : list effect) :
  callbacks_of (h1 ++ h2) = (callbacks_of h1 ++ callbacks_of h2)%list.
Proof. apply omap_app. Qed.

Lemma py_eq_str_false (v : value) (s : string) : v <> VStr s -> py_eq_str v s = false.
Proof.
  destruct v; try reflexivity. intros H. simpl. apply String.eqb_neq. congruence.
Qed.

Lemma py_eq_str_refl (s : string) : py_eq_str (VStr s) s = true.
Proof. apply String.eqb_refl. Qed.

Lemma is_done_true {A : Type} (o : outcome A) : is_done o = true -> exists a, o = Done a.
Proof. destruct o; [eauto|discriminate]. Qed.

(** *** The REST client *)

(** A cancel through a usable client is one recorded signed DELETE. *)
Lemma revoke_call_spec (self : BinanceTrade) (oid : value) (st : state) :
  rest_usable (_rest_api self) ->
  exists c w,
    BinanceRestAPI_revoke_order (_rest_api self) (VStr (_raw_symbol self)) oid VNone st
      = (Done (reply_success c, reply_error c),
         mkState (_orders st) w (history st ++ [c])) /\
    is_cancel_call self oid c.
Proof.
  intros [[key Hkey] Hurl].
  destruct (Hurl "/api/v3/order") as [base Hbase].
  unfold BinanceRestAPI_revoke_order, BinanceRestAPI_request, bind, lift,
    tools_get_cur_timestamp_ms.
  simpl. rewrite Hbase, Hkey. simpl.
  unfold AsyncHttpRequests_fetch. simpl.
  eexists (Fetch _ _ _ _ _), _. split; [reflexivity|].
  exists base, key, (get_cur_timestamp_ms (world st)).1. do 2 eexists.
  split; [exact Hbase|]. split; [exact Hkey|]. reflexivity.
Qed.

Lemma is_cancel_call_fetch (self : BinanceTrade) (oid : value) (c : effect) :
  is_cancel_call self oid c -> fetches_of [c] = [c] /\ callbacks_of [c] = [].
Proof. intros (? & ? & ? & ? & ? & _ & _ & ->). split; reflexivity. Qed.

(** *** Creating and cancelling orders *)

(** C2 (code): [create_order] reads [kwargs["client_order_id"]]; whenever the
    caller gives no such keyword the call raises [KeyError] before any REST
    call or callback, instead of returning a (result, error) pair. *)
Theorem create_order_requires_client_order_id (self : BinanceTrade)
  (action price quantity : value) (args : list value) (kwargs : gmap string value)
  (st : state) :
  BinanceTrade_create_order self action price quantity args
    (delete "client_order_id" kwargs) st
  = (Raised (KeyError "client_order_id"), st).
Proof.
  unfold BinanceTrade_create_order, kwargs_item.
  rewrite lookup_delete_eq. reflexivity.
Qed.

Lemma revoke_order_all_loop_spec (self : BinanceTrade) (rows ids : list value) :
  rest_usable (_rest_api self) ->
  Forall2 (fun row id => py_item row "orderId" = Done id) rows ids ->
  forall st : state,
  exists r calls h st',
    revoke_order_all_loop self rows st = (Done r, st') /\
    history st' = (history st ++ h)%list /\
    fetches_of h = calls /\
    _orders st' = _orders st /\
    Forall2 (is_cancel_call self) (take (List.length calls) ids) calls /\
    ((r = RevokeAll true VNone /\ List.length calls = List.length ids /\
      Forall (fun c => call_failed c = false) calls /\ callbacks_of h = [])
     \/
     (exists calls0 c,
         calls = (calls0 ++ [c])%list /\
         Forall (fun c => call_failed c = false) calls0 /\
         call_failed c = true /\
         r = RevokeAll false (reply_error c) /\
         callbacks_of h = [(error_callback, [AValue (reply_error c)])])).
Proof.
  intros Hrest Hrows. induction Hrows as [|row id rows ids Hid Hrows IH]; intros st.
  - exists (RevokeAll true VNone), [], [], st. simpl. unfold ret.
    rewrite app_nil_r. repeat split; try constructor; auto.
  - destruct (revoke_call_spec self id st Hrest) as (c & w & Hcall & Hc).
    destruct (is_cancel_call_fetch _ _ _ Hc) as [Hf Hcb].
    simpl. unfold bind at 1, lift at 1. rewrite Hid.
    unfold bind at 1. rewrite Hcall. simpl.
    destruct (truthy (reply_error c)) eqn:Herr.
    + unfold bind, emit, ret.
      eexists (RevokeAll false (reply_error c)), [c],
        [c; Callback error_callback [AValue (reply_error c)]], _.
      split; [reflexivity|].
      split; [cbn [history]; rewrite <- app_assoc; reflexivity|].
      assert (Hshape : exists m u hd s e, c = Fetch m u hd s e).
      { destruct Hc as (? & ? & ? & ? & ? & _ & _ & ->). eauto 10. }
      destruct Hshape as (m & u & hd & s & e & Hshape).
      split; [rewrite Hshape; reflexivity|].
      split; [reflexivity|].
      split; [constructor; [assumption|constructor]|].
      right. exists [], c. repeat split; auto.
      rewrite Hshape. reflexivity.
    + destruct (IH (mkState (_orders st) w (history st ++ [c])))
        as (r & calls & h & st' & Hrun & Hh & Hfs & Hord & Hall & Hcases).
      exists r, (c :: calls), (c :: h), st'.
      split; [exact Hrun|].
      split; [rewrite Hh; simpl; rewrite <- app_assoc; reflexivity|].
      split; [change (c :: h) with ([c] ++ h)%list; rewrite fetches_of_app, Hf, Hfs; reflexivity|].
      split; [exact Hord|].
      split; [simpl; constructor; assumption|].
      assert (Hcbs : callbacks_of (c :: h) = callbacks_of h).
      { change (c :: h) with ([c] ++ h)%list. rewrite callbacks_of_app, Hcb. reflexivity. }
      destruct Hcases as [(-> & Hlen & Hok & Hno) | (calls0 & c' & -> & Hok & Hbad & -> & Hcb')].
      * left. split; [reflexivity|]. split; [simpl; congruence|].
        split; [constructor; assumption|]. congruence.
      * right. exists (c :: calls0), c'. split; [reflexivity|].
        split; [constructor; assumption|]. split; [assumption|].
        split; [reflexivity|]. congruence.
Qed.

(** C3 (amended): with no argument, given the open orders fetched at call
    time, cancel calls are issued one per order, in list order, until the
    first cancel that fails; the orders after a failed cancel receive no
    call. The result is [(True, None)] exactly when every issued cancel
    succeeds, and then every open order received exactly one cancel call;
    otherwise it is [(False, error)] with the error of the failed cancel. *)
Theorem revoke_order_all_stops_at_first_failure (self : BinanceTrade) (st : state)
  (order_infos error : value) (st1 : state) (rows ids : list value) :
  rest_usable (_rest_api self) ->
  BinanceRestAPI_get_open_orders (_rest_api self) (VStr (_raw_symbol self)) st
    = (Done (order_infos, error), st1) ->
  truthy error = false ->
  py_iter order_infos = Done rows ->
  Forall2 (fun row id => py_item row "orderId" = Done id) rows ids ->
  exists r st' calls,
    BinanceTrade_revoke_order self [] st = (Done r, st') /\
    fetches_of (history st') = (fetches_of (history st1) ++ calls)%list /\
    _orders st' = _orders st1 /\
    Forall2 (is_cancel_call self) (take (List.length calls) ids) calls /\
    (r = RevokeAll true VNone <-> Forall (fun c => call_failed c = false) calls) /\
    ((r = RevokeAll true VNone /\ List.length calls = List.length ids)
     \/
     (exists calls0 c,
         calls = (calls0 ++ [c])%list /\
         Forall (fun c => call_failed c = false) calls0 /\
         call_failed c = true /\
         r = RevokeAll false (reply_error c))).
Proof.
  intros Hrest Hopen Herr Hiter Hrows.
  destruct (revoke_order_all_loop_spec self rows ids Hrest Hrows st1)
    as (r & calls & h & st' & Hrun & Hh & Hfs & Hord & Hall & Hcases).
  exists r, st', calls.
  split.
  { unfold BinanceTrade_revoke_order. unfold bind at 1. rewrite Hopen. simpl.
    rewrite Herr. unfold bind at 1, lift at 1. rewrite Hiter. exact Hrun. }
  split; [rewrite Hh, fetches_of_app, Hfs; reflexivity|].
  split; [exact Hord|].
  split; [exact Hall|].
  destruct Hcases as [(-> & Hlen & Hok & _) | (calls0 & c & -> & Hok & Hbad & -> & _)].
  - split; [split; auto|]. left. auto.
  - split.
    + split; [discriminate|]. intros Hall'.
      apply Forall_app in Hall' as [_ Hc]. inversion Hc; congruence.
    + right. exists calls0, c. auto.
Qed.

Lemma revoke_order_many_loop_spec (self : BinanceTrade) (ids : list value) :
  rest_usable (_rest_api self) ->
  forall (success : list value) (error : list (value * value)) (st : state),
  exists calls h st',
    revoke_order_many_loop self ids success error st
      = (Done (RevokeMany (success ++ succeeded_ids ids calls)
                 (error ++ failed_pairs ids calls)), st') /\
    history st' = (history st ++ h)%list /\
    fetches_of h = calls /\
    callbacks_of h = failure_callbacks calls /\
    Forall2 (is_cancel_call self) ids calls /\
    _orders st' = _orders st.
Proof.
  intros Hrest. induction ids as [|id ids IH]; intros success error st.
  - exists [], [], st. simpl. unfold ret, succeeded_ids, failed_pairs. simpl.
    rewrite !app_nil_r. repeat split; constructor.
  - destruct (revoke_call_spec self id st Hrest) as (c & w & Hcall & Hc).
    destruct (is_cancel_call_fetch _ _ _ Hc) as [Hf Hcb].
    simpl. unfold bind at 1. rewrite Hcall. simpl.
    destruct (truthy (reply_error c)) eqn:Herr.
    + unfold bind at 1, emit at 1. simpl.
      edestruct (IH success (error ++ [(id, reply_error c)])%list) as
        (calls & h & st' & Hrun & Hh & Hfs & Hcbs & Hall & Hord).
      rewrite Hrun. exists (c :: calls), (c :: Callback error_callback [AValue (reply_error c)] :: h), st'.
      split.
      { f_equal. unfold succeeded_ids, failed_pairs, call_failed. simpl. rewrite Herr. simpl.
        rewrite <- app_assoc. reflexivity. }
      split. { rewrite Hh. simpl. rewrite <- !app_assoc. reflexivity. }
      split.
      { change (c :: Callback error_callback [AValue (reply_error c)] :: h)
          with ([c] ++ [Callback error_callback [AValue (reply_error c)]] ++ h)%list.
        rewrite !fetches_of_app, Hf, Hfs. reflexivity. }
      split.
      { change (c :: Callback error_callback [AValue (reply_error c)] :: h)
          with ([c] ++ [Callback error_callback [AValue (reply_error c)]] ++ h)%list.
        rewrite !callbacks_of_app, Hcb, Hcbs. unfold failure_callbacks, call_failed. simpl.
        rewrite Herr. reflexivity. }
      split; [constructor; assumption|]. rewrite Hord. reflexivity.
    + edestruct (IH (success ++ [id])%list error) as
        (calls & h & st' & Hrun & Hh & Hfs & Hcbs & Hall & Hord).
      rewrite Hrun. exists (c :: calls), (c :: h), st'.
      split.
      { f_equal. unfold succeeded_ids, failed_pairs, call_failed. simpl. rewrite Herr. simpl.
        rewrite <- app_assoc. reflexivity. }
      split. { rewrite Hh. simpl. rewrite <- !app_assoc. reflexivity. }
      split.
      { change (c :: h) with ([c] ++ h)%list. rewrite fetches_of_app, Hf, Hfs. reflexivity. }
      split.
      { change (c :: h) with ([c] ++ h)%list.
        rewrite callbacks_of_app, Hcb, Hcbs. unfold failure_callbacks, call_failed. simpl.
        rewrite Herr. reflexivity. }
      split; [constructor; assumption|]. rewrite Hord. reflexivity.
Qed.

(** C4: with two or more ids, every id receives exactly one cancel call, in
    order, whatever the outcome of the others; the result is the partition
    into the ids whose cancel succeeded and the (id, error) pairs of those
    that failed, each failure is reported once to the error callback, and the
    order mapping is untouched. In particular [revoke_order(id1, id2)] with
    [id1] succeeding and [id2] failing returns [([id1], [(id2, error)])]. *)
Theorem revoke_order_many_partition (self : BinanceTrade) (ids : list value) (st : state) :
  rest_usable (_rest_api self) ->
  (2 <= List.length ids)%nat ->
  exists calls h st',
    BinanceTrade_revoke_order self ids st
      = (Done (RevokeMany (succeeded_ids ids calls) (failed_pairs ids calls)), st') /\
    history st' = (history st ++ h)%list /\
    fetches_of h = calls /\
    Forall2 (is_cancel_call self) ids calls /\
    callbacks_of h = failure_callbacks calls /\
    _orders st' = _orders st /\
    (forall id1 id2 c1 c2,
        ids = [id1; id2] -> calls = [c1; c2] ->
        call_failed c1 = false -> call_failed c2 = true ->
        BinanceTrade_revoke_order self [id1; id2] st
          = (Done (RevokeMany [id1] [(id2, reply_error c2)]), st')).
Proof.
  intros Hrest Hlen.
  destruct (revoke_order_many_loop_spec self ids Hrest [] [] st)
    as (calls & h & st' & Hrun & Hh & Hfs & Hcbs & Hall & Hord).
  exists calls, h, st'.
  assert (Hmode : BinanceTrade_revoke_order self ids st
                  = revoke_order_many_loop self ids [] [] st).
  { destruct ids as [|a [|b l]]; simpl in Hlen; try lia. reflexivity. }
  split; [rewrite Hmode; exact Hrun|].
  do 5 (split; [assumption|]).
  intros id1 id2 c1 c2 Hids Hcalls H1 H2. subst ids calls.
  rewrite Hmode, Hrun.
  unfold succeeded_ids, failed_pairs, call_failed in *.
  rewrite Hcalls. simpl. rewrite H1, H2. reflexivity.
Qed.

(** *** The status mapping *)

Lemma status_chain_unrecognized (v : value) :
  unrecognized_status v -> connected_callback_status v = None.
Proof.
  intros H. unfold connected_callback_status.
  repeat match goal with
         | |- context [py_eq_str v ?s] =>
             rewrite (py_eq_str_false v s) by (apply H; unfold exchange_statuses; set_solver)
         end.
  reflexivity.
Qed.

(** C5: the snapshot path and the stream path map the exchange statuses by
    the same function, NEW to SUBMITTED, PARTIALLY_FILLED to PARTIAL_FILLED,
    FILLED to FILLED, CANCELED to CANCELED, REJECTED and EXPIRED to FAILED,
    which is undefined exactly outside this vocabulary; a snapshot entry
    with a status outside it only adds an error callback and the loop goes on
    with the remaining entries; an execution report for the configured
    symbol with such a status only adds an error callback and returns. *)
Theorem status_mapping_total_unknown_skipped (self : BinanceTrade) :
  (connected_callback_status (VStr "NEW") = Some ORDER_STATUS_SUBMITTED /\
   connected_callback_status (VStr "PARTIALLY_FILLED") = Some ORDER_STATUS_PARTIAL_FILLED /\
   connected_callback_status (VStr "FILLED") = Some ORDER_STATUS_FILLED /\
   connected_callback_status (VStr "CANCELED") = Some ORDER_STATUS_CANCELED /\
   connected_callback_status (VStr "REJECTED") = Some ORDER_STATUS_FAILED /\
   connected_callback_status (VStr "EXPIRED") = Some ORDER_STATUS_FAILED) /\
  (forall v : value, process_status v = connected_callback_status v) /\
  (forall v : value, unrecognized_status v <-> connected_callback_status v = None) /\
  (forall (d : list (string * value)) (v : value) (rest : list value) (st : state),
      dict_lookup d "status" = Some v -> unrecognized_status v ->
      connected_callback_loop self (VDict d :: rest) st
      = connected_callback_loop self rest
          (mkState (_orders st) (world st)
             (history st
              ++ [Callback error_callback [AValue (VStr "order status error.")]]))) /\
  (forall (d : list (string * value)) (i v : value) (st : state),
      dict_lookup d "e" = Some (VStr "executionReport") ->
      dict_lookup d "s" = Some (VStr (_raw_symbol self)) ->
      dict_lookup d "i" = Some i ->
      dict_lookup d "X" = Some v -> unrecognized_status v ->
      BinanceTrade_process self (VDict d) st
      = (Done tt,
         mkState (_orders st) (world st)
           (history st
            ++ [Callback error_callback [AValue (VStr "order status error.")]]))).
Proof.
  split; [repeat split|]. split; [reflexivity|]. split; [|split].
  - intros v. split; [apply status_chain_unrecognized|].
    intros Hnone name Hname ->.
    unfold exchange_statuses in Hname.
    repeat (apply elem_of_cons in Hname as [-> | Hname]; [discriminate|]).
    inversion Hname.
  - intros d v rest st Hd Hv. simpl. unfold connected_callback_entry.
    rewrite bind_assoc.
    rewrite (bind_lift_done (py_item (VDict d) "status") v) by (simpl; rewrite Hd; reflexivity).
    rewrite (status_chain_unrecognized v Hv). rewrite bind_emit. reflexivity.
  - intros d i v st He Hs Hi Hx Hv. unfold BinanceTrade_process.
    rewrite (bind_lift_done (py_get (VDict d) "e") (VStr "executionReport"))
      by (simpl; rewrite He; reflexivity).
    rewrite py_eq_str_refl.
    rewrite (bind_lift_done (py_item (VDict d) "s") (VStr (_raw_symbol self)))
      by (simpl; rewrite Hs; reflexivity).
    rewrite py_eq_str_refl. cbn [negb].
    rewrite (bind_lift_done (py_item (VDict d) "i") i) by (simpl; rewrite Hi; reflexivity).
    rewrite (bind_lift_done (py_item (VDict d) "X") v) by (simpl; rewrite Hx; reflexivity).
    change (process_status v) with (connected_callback_status v).
    rewrite (status_chain_unrecognized v Hv). reflexivity.
Qed.

(** *** Stream processing *)

(** What [process] does with a well-formed execution report. *)
Lemma process_report (self : BinanceTrade) (msg : value) (st : state)
  (e s i x c side o p q created z t : value) (status : order_status) (fq fz : F) :
  py_get msg "e" = Done e -> py_eq_str e "executionReport" = true ->
  py_item msg "s" = Done s -> py_eq_str s (_raw_symbol self) = true ->
  py_item msg "i" = Done i -> py_item msg "X" = Done x ->
  process_status x = Some status ->
  py_item msg "c" = Done c -> py_item msg "S" = Done side ->
  py_item msg "o" = Done o -> py_item msg "p" = Done p ->
  py_item msg "q" = Done q -> py_item msg "O" = Done created ->
  py_float q = Done fq ->
  py_item msg "z" = Done z -> py_float z = Done fz ->
  py_item msg "T" = Done t ->
  let id := py_str i in
  let order := reported_order self (_orders st) id c side o p q created (fsub fq fz) status t in
  BinanceTrade_process self msg st =
    (Done tt,
     mkState
       (if status_is_terminal status then delete id (_orders st)
        else <[id := order]> (_orders st))
       (world st)
       (history st
        ++ match _orders st !! id with Some _ => [] | None => [OrdersSet id] end
        ++ [Callback order_update_callback [AOrder order]]
        ++ if status_is_terminal status then [OrdersPop id] else [])).
Proof.
  intros He Hee Hs Hss Hi Hx Hst Hc Hside Ho Hp Hq Hcr Hfq Hz Hfz Ht id order.
  unfold BinanceTrade_process.
  rewrite (bind_lift_done _ _ _ _ He), Hee.
  rewrite (bind_lift_done _ _ _ _ Hs), Hss. cbn [negb].
  rewrite (bind_lift_done _ _ _ _ Hi).
  rewrite (bind_lift_done _ _ _ _ Hx), Hst.
  rewrite bind_get_orders. fold id.
  unfold order, reported_order.
  destruct (_orders st !! id) as [old|] eqn:Hold.
  - mrun.
    rewrite (bind_lift_done _ _ _ _ Hq), (bind_lift_done _ _ _ _ Hfq).
    rewrite (bind_lift_done _ _ _ _ Hz), (bind_lift_done _ _ _ _ Hfz).
    mrun. rewrite (bind_lift_done _ _ _ _ Ht). mrun.
    rewrite !insert_insert_eq.
    destruct (status_is_terminal status).
    + erewrite bind_orders_pop by (cbn [_orders]; apply lookup_insert_eq).
      cbn [_orders world history]. unfold ret.
      rewrite delete_insert_eq, <- !app_assoc. reflexivity.
    + unfold ret. rewrite app_nil_r. reflexivity.
  - mrun. rewrite (bind_lift_done _ _ _ _ Hc). mrun.
    rewrite (bind_lift_done _ _ _ _ Hside). mrun.
    rewrite (bind_lift_done _ _ _ _ Ho). mrun.
    rewrite (bind_lift_done _ _ _ _ Hp). mrun.
    rewrite (bind_lift_done _ _ _ _ Hq). mrun.
    rewrite (bind_lift_done _ _ _ _ Hcr). mrun.
    rewrite (bind_lift_done _ _ _ _ Hq), (bind_lift_done _ _ _ _ Hfq).
    rewrite (bind_lift_done _ _ _ _ Hz), (bind_lift_done _ _ _ _ Hfz).
    mrun. rewrite (bind_lift_done _ _ _ _ Ht). mrun.
    rewrite !insert_insert_eq.
    destruct (status_is_terminal status).
    + erewrite bind_orders_pop by (cbn [_orders]; apply lookup_insert_eq).
      cbn [_orders world history]. unfold ret.
      rewrite delete_insert_eq, <- !app_assoc. reflexivity.
    + unfold ret. rewrite app_nil_r, <- !app_assoc. reflexivity.
Qed.



(** What [process] does with an execution report for the configured symbol. *)
Lemma process_of_report (self : BinanceTrade) (id : string) (msg : value) :
  execution_report_for self id msg = true ->
  exists x status q fq z fz t c side o p created,
    py_item msg "X" = Done x /\ process_status x = Some status /\
    py_item msg "q" = Done q /\ py_float q = Done fq /\
    py_item msg "z" = Done z /\ py_float z = Done fz /\
    py_item msg "T" = Done t /\
    forall st : state,
      let order :=
        reported_order self (_orders st) id c side o p q created (fsub fq fz) status t in
      BinanceTrade_process self msg st =
        (Done tt,
         mkState
           (if status_is_terminal status then delete id (_orders st)
            else <[id := order]> (_orders st))
           (world st)
           (history st
            ++ match _orders st !! id with Some _ => [] | None => [OrdersSet id] end
            ++ [Callback order_update_callback [AOrder order]]
            ++ if status_is_terminal status then [OrdersPop id] else [])).
Proof.
  unfold execution_report_for. intros H.
  destruct (py_get msg "e") as [e|] eqn:He; [|discriminate].
  destruct (py_item msg "s") as [s|] eqn:Hs; [|discriminate].
  destruct (py_item msg "i") as [i|] eqn:Hi; [|discriminate].
  destruct (py_item msg "X") as [x|] eqn:Hx; [|discriminate].
  repeat (apply andb_prop in H as [H ?]).
  destruct (process_status x) as [status|] eqn:Hst; [|discriminate].
  destruct (py_item msg "q") as [q|] eqn:Hq; [|discriminate].
  destruct (py_item msg "z") as [z|] eqn:Hz; [|discriminate].
  repeat match goal with
         | H : is_done _ = true |- _ => apply is_done_true in H as [? ?]
         end.
  match goal with H : String.eqb _ _ = true |- _ => apply String.eqb_eq in H end.
  subst id.
  do 12 eexists. repeat (split; [eassumption || reflexivity|]).
  intros st. eapply process_report; eassumption.
Qed.

Lemma process_all_snoc (self : BinanceTrade) (msgs : list value) (msg : value) :
  forall st : state,
    process_all self (msgs ++ [msg]) st
    = bind (process_all self msgs) (fun _ => BinanceTrade_process self msg) st.
Proof.
  induction msgs as [|m msgs IH]; intros st; simpl.
  - rewrite bind_ret. unfold bind. destruct (BinanceTrade_process self msg st) as [[[]|] ?];
      reflexivity.
  - unfold bind in *.
    destruct (BinanceTrade_process self m st) as [[[]|] st1]; [apply IH|reflexivity].
Qed.

Lemma process_all_reports_done (self : BinanceTrade) (id : string) (msgs : list value) :
  Forall (fun m => execution_report_for self id m = true) msgs ->
  forall st : state, exists st', process_all self msgs st = (Done tt, st').
Proof.
  induction 1 as [|m msgs Hm _ IH]; intros st; simpl.
  - eexists. reflexivity.
  - destruct (process_of_report self id m Hm)
      as (? & ? & ? & ? & ? & ? & ? & ? & ? & ? & ? & ? & _ & _ & _ & _ & _ & _ & _ & Hrun).
    unfold bind. rewrite Hrun. apply IH.
Qed.

Lemma callbacks_of_report_effects (h pre post : list effect) (id : string)
  (cb : callback) (args : list callback_arg) :
  pre = [] \/ pre = [OrdersSet id] ->
  post = [] \/ post = [OrdersPop id] ->
  last (callbacks_of (h ++ pre ++ [Callback cb args] ++ post)) = Some (cb, args).
Proof.
  intros Hpre Hpost. rewrite !callbacks_of_app.
  replace (callbacks_of pre) with (@nil (callback * list callback_arg))
    by (destruct Hpre as [-> | ->]; reflexivity).
  replace (callbacks_of post) with (@nil (callback * list callback_arg))
    by (destruct Hpost as [-> | ->]; reflexivity).
  cbn [app]. change (callbacks_of [Callback cb args]) with [(cb, args)].
  rewrite app_nil_r. apply last_snoc.
Qed.

(** C6: after a sequence of execution reports for one order id, the order
    of the last notification has [remain], [status] and [utime] of the last
    report alone, [remain] being its quantity minus its cumulative executed
    quantity, whatever the earlier reports were; the live mapping holds that
    order under the id, unless the last status is terminal, in which case the
    id is absent. *)
Theorem process_last_write_wins (self : BinanceTrade) (id : string)
  (msgs : list value) (final : value) (st : state)
  (x q z t : value) (s : order_status) (fq fz : F) :
  Forall (fun m => execution_report_for self id m = true) msgs ->
  execution_report_for self id final = true ->
  py_item final "X" = Done x -> process_status x = Some s ->
  py_item final "q" = Done q -> py_float q = Done fq ->
  py_item final "z" = Done z -> py_float z = Done fz ->
  py_item final "T" = Done t ->
  exists st' o,
    process_all self (msgs ++ [final]) st = (Done tt, st') /\
    remain o = VFloat (fsub fq fz) /\ status o = s /\ utime o = t /\
    last (callbacks_of (history st')) = Some (order_update_callback, [AOrder o]) /\
    _orders st' !! id = if status_is_terminal s then None else Some o.
Proof.
  intros Hmsgs Hfinal Hx Hs Hq Hfq Hz Hfz Ht.
  destruct (process_all_reports_done self id msgs Hmsgs st) as [st1 Hst1].
  destruct (process_of_report self id final Hfinal)
    as (x' & s' & q' & fq' & z' & fz' & t' & c & side & o & p & created
        & Hx' & Hs' & Hq' & Hfq' & Hz' & Hfz' & Ht' & Hrun).
  rewrite Hx in Hx'. injection Hx' as <-. rewrite Hs in Hs'. injection Hs' as <-.
  rewrite Hq in Hq'. injection Hq' as <-. rewrite Hfq in Hfq'. injection Hfq' as <-.
  rewrite Hz in Hz'. injection Hz' as <-. rewrite Hfz in Hfz'. injection Hfz' as <-.
  rewrite Ht in Ht'. injection Ht' as <-.
  eexists _, (reported_order self (_orders st1) id c side o p q created (fsub fq fz) s t).
  split.
  { rewrite process_all_snoc. unfold bind. rewrite Hst1. apply Hrun. }
  split; [reflexivity|]. split; [reflexivity|]. split; [reflexivity|].
  cbn [history _orders]. split.
  - apply callbacks_of_report_effects with (id := id).
    + destruct (_orders st1 !! id); auto.
    + destruct (status_is_terminal s); auto.
  - destruct (status_is_terminal s).
    + apply lookup_delete_eq.
    + apply lookup_insert_eq.
Qed.


(** C9: an execution report whose symbol field differs from the configured
    (raw) symbol leaves the state as it is: no entry added, removed or
    changed, no callback, no other effect. *)
Theorem process_ignores_other_symbol (self : BinanceTrade)
  (d : list (string * value)) (s : value) (st : state) :
  dict_lookup d "e" = Some (VStr "executionReport") ->
  dict_lookup d "s" = Some s ->
  s <> VStr (_raw_symbol self) ->
  BinanceTrade_process self (VDict d) st = (Done tt, st).
Proof.
  intros He Hs Hne. unfold BinanceTrade_process.
  rewrite (bind_lift_done (py_get (VDict d) "e") (VStr "executionReport"))
    by (simpl; rewrite He; reflexivity).
  rewrite py_eq_str_refl.
  rewrite (bind_lift_done (py_item (VDict d) "s") s) by (simpl; rewrite Hs; reflexivity).
  rewrite (py_eq_str_false _ _ Hne). reflexivity.
Qed.

(** *** Snapshot loading *)













(** *** The constructor *)

Lemma kwargs_get_missing (kwargs : gmap string value) (key : string) :
  kwargs !! key = None -> truthy (kwargs_get kwargs key) = false.
Proof. unfold kwargs_get. intros ->. reflexivity. Qed.

Lemma kwargs_get_truthy (kwargs : gmap string value) (key : string) :
  truthy (kwargs_get kwargs key) = true -> exists v, kwargs !! key = Some v.
Proof. unfold kwargs_get. destruct (kwargs !! key); [eauto|discriminate]. Qed.

Lemma kwargs_get_insert_ne (kwargs : gmap string value) (k key : string) (v : value) :
  k <> key -> kwargs_get (<[k := v]> kwargs) key = kwargs_get kwargs key.
Proof. intros H. unfold kwargs_get. rewrite lookup_insert_ne by assumption. reflexivity. Qed.

Lemma kwargs_item_insert_ne (kwargs : gmap string value) (k key : string) (v : value) :
  k <> key -> kwargs_item (<[k := v]> kwargs) key = kwargs_item kwargs key.
Proof. intros H. unfold kwargs_item. rewrite lookup_insert_ne by assumption. reflexivity. Qed.

Lemma init_platform (kwargs : gmap string value) (st : state) :
  kwargs !! "platform" = None ->
  (forall key, key ∈ validated_keywords -> truthy (kwargs_get kwargs key) = true) ->
  BinanceTrade_init kwargs st = (Raised (KeyError "platform"), st).
Proof.
  intros Hp Hall. unfold BinanceTrade_init. cbv zeta.
  assert (Ha := Hall "account" ltac:(unfold validated_keywords; set_solver)).
  assert (Hs := Hall "strategy" ltac:(unfold validated_keywords; set_solver)).
  assert (Hy := Hall "symbol" ltac:(unfold validated_keywords; set_solver)).
  assert (Hk := Hall "access_key" ltac:(unfold validated_keywords; set_solver)).
  assert (Hsk := Hall "secret_key" ltac:(unfold validated_keywords; set_solver)).
  destruct (kwargs_get_truthy _ _ Ha) as [va Hva].
  destruct (kwargs_get_truthy _ _ Hs) as [vs Hvs].
  destruct (truthy (kwargs_get kwargs "host")); cbn [negb];
    rewrite ?kwargs_get_insert_ne by done;
    destruct (truthy (kwargs_get kwargs "wss")); cbn [negb];
    rewrite ?kwargs_get_insert_ne by done;
    rewrite Ha, Hs, Hy, Hk, Hsk; cbn [negb]; mrun;
    rewrite ?kwargs_item_insert_ne by done;
    unfold kwargs_item; rewrite Hva, Hvs, Hp; mrun; reflexivity.
Qed.

(** After the report of a validation error the reads of the keywords
    follow: they raise [KeyError] at the first keyword that is absent. *)
Lemma init_reads_raise (kw : gmap string value) (key : string) (st : state)
  (k : value -> value -> value -> value -> value -> value -> value -> value
       -> M BinanceTrade) :
  key ∈ validated_keywords -> kw !! key = None ->
  exists k', k' ∈ ["account"; "strategy"; "platform"; "symbol"; "host"; "wss";
                   "access_key"; "secret_key"] /\ kw !! k' = None /\
    (let! account := lift (kwargs_item kw "account") in
     let! strategy := lift (kwargs_item kw "strategy") in
     let! platform := lift (kwargs_item kw "platform") in
     let! symbol := lift (kwargs_item kw "symbol") in
     let! host := lift (kwargs_item kw "host") in
     let! wss := lift (kwargs_item kw "wss") in
     let! access_key := lift (kwargs_item kw "access_key") in
     let! secret_key := lift (kwargs_item kw "secret_key") in
     k account strategy platform symbol host wss access_key secret_key) st
    = (Raised (KeyError k'), st).
Proof.
  intros Hkey Hmiss. unfold kwargs_item.
  destruct (kw !! "account") eqn:H1;
    [|exists "account"; split; [set_solver|split; [assumption|reflexivity]]].
  destruct (kw !! "strategy") eqn:H2;
    [|exists "strategy"; split; [set_solver|split; [assumption|reflexivity]]].
  destruct (kw !! "platform") eqn:H3;
    [|exists "platform"; split; [set_solver|split; [assumption|reflexivity]]].
  destruct (kw !! "symbol") eqn:H4;
    [|exists "symbol"; split; [set_solver|split; [assumption|reflexivity]]].
  destruct (kw !! "host") eqn:H5;
    [|exists "host"; split; [set_solver|split; [assumption|reflexivity]]].
  destruct (kw !! "wss") eqn:H6;
    [|exists "wss"; split; [set_solver|split; [assumption|reflexivity]]].
  destruct (kw !! "access_key") eqn:H7;
    [|exists "access_key"; split; [set_solver|split; [assumption|reflexivity]]].
  destruct (kw !! "secret_key") eqn:H8;
    [|exists "secret_key"; split; [set_solver|split; [assumption|reflexivity]]].
  exfalso. unfold validated_keywords in Hkey.
  repeat (apply elem_of_cons in Hkey as [-> | Hkey]; [congruence|]).
  inversion Hkey.
Qed.

Lemma init_missing_keyword (kwargs : gmap string value) (st : state) (key : string) :
  key ∈ validated_keywords -> kwargs !! key = None ->
  is_Some (kwargs !! "error_callback") -> is_Some (kwargs !! "init_callback") ->
  exists msg k st',
    BinanceTrade_init kwargs st = (Raised (KeyError k), st') /\
    history st'
    = (history st
       ++ [Callback error_callback [AError msg];
           Callback init_callback [AValue (VBool false)]])%list /\
    _orders st' = _orders st /\
    msg ∈ validation_messages /\
    k ∈ ["account"; "strategy"; "platform"; "symbol"; "access_key"; "secret_key"] /\
    kwargs !! k = None.
Proof.
  intros Hkey Hmiss [ecb Hecb] [icb Hicb].
  assert (Hfalsy := kwargs_get_missing kwargs key Hmiss).
  unfold BinanceTrade_init. cbv zeta.
  destruct (truthy (kwargs_get kwargs "host")) eqn:Th; cbn [negb];
    rewrite ?kwargs_get_insert_ne by done;
    destruct (truthy (kwargs_get kwargs "wss")) eqn:Tw; cbn [negb];
    rewrite ?kwargs_get_insert_ne by done.
  all: match goal with
       | |- context [bind (match ?e with Some _ => _ | None => _ end) _ _] =>
           assert (exists msg, e = Some msg /\ msg ∈ validation_messages)
             as (msg & -> & Hmsg)
             by (clear - Hkey Hfalsy; unfold validated_keywords in Hkey;
                 repeat (apply elem_of_cons in Hkey as [-> | Hkey];
                    [rewrite Hfalsy; cbn [negb];
                     repeat match goal with
                            | |- context [truthy ?x] => destruct (truthy x)
                            end; cbn [negb];
                     eexists; (split; [reflexivity|unfold validation_messages; repeat constructor])|]);
                 apply elem_of_nil in Hkey; contradiction)
       end.
  all: match goal with
       | |- context [kwargs_item ?kw "error_callback"] =>
           assert (Hkw : kw !! key = None)
             by (clear - Hkey Hmiss; unfold validated_keywords in Hkey;
                 repeat (apply elem_of_cons in Hkey as [-> | Hkey];
                         [rewrite ?lookup_insert_ne by done; assumption|]);
                 apply elem_of_nil in Hkey; contradiction);
           edestruct (init_reads_raise kw key
                        (mkState (_orders st) (world st)
                           ((history st ++ [Callback error_callback [AError msg]])
                            ++ [Callback init_callback [AValue (VBool false)]])))
             as (k' & Hk' & Hnone & Hrun); [exact Hkey|exact Hkw|];
           exists msg, k',
             (mkState (_orders st) (world st)
                ((history st ++ [Callback error_callback [AError msg]])
                 ++ [Callback init_callback [AValue (VBool false)]]));
           split;
           [ cbv beta iota; mrun;
             rewrite (bind_lift_done (kwargs_item kw "error_callback") ecb)
               by (unfold kwargs_item; rewrite ?lookup_insert_ne by done;
                   rewrite Hecb; reflexivity);
             mrun;
             rewrite (bind_lift_done (kwargs_item kw "init_callback") icb)
               by (unfold kwargs_item; rewrite ?lookup_insert_ne by done;
                   rewrite Hicb; reflexivity);
             mrun; apply Hrun
           | cbn [history _orders];
             split; [rewrite <- app_assoc; reflexivity|];
             split; [reflexivity|]; split; [assumption|] ]
       end.
  all: repeat (apply elem_of_cons in Hk' as [-> | Hk'];
               [ rewrite ?lookup_insert_ne in Hnone by done;
                 rewrite ?lookup_insert_eq in Hnone;
                 first [ discriminate Hnone
                       | exfalso; apply kwargs_get_missing in Hnone; congruence
                       | split; [repeat constructor|assumption] ]
               | ]).
  all: apply elem_of_nil in Hk'; contradiction.
Qed.

(** C10: when one of account, strategy, symbol, access_key, secret_key is
    absent (and the callbacks are given) the constructor reports the error to
    the error callback and [False] to the init callback, and then still reads
    the keywords and raises [KeyError] for an absent one; and without
    'platform', all validated keywords being given, it raises
    [KeyError('platform')] with no callback and no other effect. *)
Theorem init_validation_does_not_halt :
  (forall (kwargs : gmap string value) (st : state) (key : string),
      key ∈ validated_keywords -> kwargs !! key = None ->
      is_Some (kwargs !! "error_callback") -> is_Some (kwargs !! "init_callback") ->
      exists msg k st',
        BinanceTrade_init kwargs st = (Raised (KeyError k), st') /\
        history st'
        = (history st
           ++ [Callback error_callback [AError msg];
               Callback init_callback [AValue (VBool false)]])%list /\
        _orders st' = _orders st /\
        msg ∈ validation_messages /\
        k ∈ ["account"; "strategy"; "platform"; "symbol"; "access_key"; "secret_key"] /\
        kwargs !! k = None) /\
  (forall (kwargs : gmap string value) (st : state),
      kwargs !! "platform" = None ->
      (forall key, key ∈ validated_keywords -> truthy (kwargs_get kwargs key) = true) ->
      BinanceTrade_init kwargs st = (Raised (KeyError "platform"), st)).
Proof.
  split.
  - apply init_missing_keyword.
  - apply init_platform.
Qed.

(** The REST client a constructed trade object holds: the three arguments
    of [BinanceRestAPI(self._host, self._access_key, self._secret_key)] land on
    the parameters [access_key], [secret_key], [host], in that order. *)
Lemma init_rest_client (kwargs : gmap string value) (st st' : state) (self : BinanceTrade) :
  BinanceTrade_init kwargs st = (Done self, st') ->
  api_access_key (_rest_api self) = _host self /\
  api_secret_key (_rest_api self) = _access_key self /\
  api_host (_rest_api self) = _secret_key self /\
  _access_key self = kwargs_get kwargs "access_key" /\
  _secret_key self = kwargs_get kwargs "secret_key".
Proof.
  unfold BinanceTrade_init. cbv zeta.
  match goal with
  | |- context [bind (match ?e with Some _ => _ | None => _ end) _ _] =>
      generalize e
  end.
  intros e.
  assert (Hkw : forall kw : gmap string value,
             (kw = kwargs \/ kw = <["host" := VStr "https://api.binance.com"]> kwargs
              \/ kw = <["wss" := VStr "wss://stream.binance.com:9443"]> kwargs
              \/ kw = <["wss" := VStr "wss://stream.binance.com:9443"]>
                        (<["host" := VStr "https://api.binance.com"]> kwargs)) ->
             forall v, kwargs_item kw "access_key" = Done v -> v = kwargs_get kwargs "access_key").
  { intros kw Hcases v. unfold kwargs_item, kwargs_get.
    destruct Hcases as [-> | [-> | [-> | ->]]]; rewrite ?lookup_insert_ne by done;
      destruct (kwargs !! "access_key"); congruence. }
  assert (Hkw' : forall kw : gmap string value,
             (kw = kwargs \/ kw = <["host" := VStr "https://api.binance.com"]> kwargs
              \/ kw = <["wss" := VStr "wss://stream.binance.com:9443"]> kwargs
              \/ kw = <["wss" := VStr "wss://stream.binance.com:9443"]>
                        (<["host" := VStr "https://api.binance.com"]> kwargs)) ->
             forall v, kwargs_item kw "secret_key" = Done v -> v = kwargs_get kwargs "secret_key").
  { intros kw Hcases v. unfold kwargs_item, kwargs_get.
    destruct Hcases as [-> | [-> | [-> | ->]]]; rewrite ?lookup_insert_ne by done;
      destruct (kwargs !! "secret_key"); congruence. }
  match goal with
  | |- context [kwargs_item ?kw "account"] =>
      assert (Hcases : kw = kwargs \/ kw = <["host" := VStr "https://api.binance.com"]> kwargs
              \/ kw = <["wss" := VStr "wss://stream.binance.com:9443"]> kwargs
              \/ kw = <["wss" := VStr "wss://stream.binance.com:9443"]>
                        (<["host" := VStr "https://api.binance.com"]> kwargs))
        by (destruct (truthy (kwargs_get kwargs "host")); cbn [negb];
            destruct (truthy (kwargs_get _ "wss")); cbn [negb]; auto);
      specialize (Hkw kw Hcases); specialize (Hkw' kw Hcases); clear Hcases;
      generalize dependent kw
  end.
  intros kw Hkw Hkw'.
  destruct e as [msg|].
  - do 11 mcase. mrun. intros [= <- <-]. cbn.
    repeat split; auto.
  - do 9 mcase. mrun. intros [= <- <-]. cbn.
    repeat split; auto.
Qed.

End Properties.

(** ** The properties at concrete inputs *)

(** Evaluate the left-hand side of the equation [H] in the virtual machine. *)
Ltac vm_lhs_in H :=
  match type of H with
  | ?l = _ =>
      let v := eval vm_compute in l in
      let E := fresh "E" in
      assert (E : l = v) by (vm_compute; reflexivity);
      rewrite E in H; clear E
  end.

Lemma wired_trade_usable : rest_usable (R := scripted) (_rest_api wired_trade).
Proof.
  split; [exists "SK"; reflexivity|].
  intros uri. eexists. reflexivity.
Qed.

(** The HMAC-SHA256 model on test case 2 of RFC 4231. *)
Example hmac_sha256_rfc4231_case2 :
  hmac_sha256_hex "Jefe" "what do ya want for nothing?"
  = "5bdcc146bf60754e6a042426089575c75a003f089d2739839dec58b964ec3843".
Proof. vm_compute. reflexivity. Qed.

(** C1 (code): the trade object built from access key "AK" and secret key
    "SK" holds a REST client whose requests are signed with HMAC-SHA256 keyed
    by the access key "AK", not by the secret key, and whose X-MBX-APIKEY
    header carries the host, not the access key; the secret key takes the
    place of the host in the URL. *)
Theorem trade_rest_client_signs_with_access_key :
  exists self st0,
    BinanceTrade_init (R := scripted) example_kwargs (state_with []) = (Done self, st0) /\
    _access_key self = VStr "AK" /\ _secret_key self = VStr "SK" /\
    _rest_api self
    = BinanceRestAPI_init (VStr "https://api.binance.com") (VStr "AK") (VStr "SK") /\
    fetches_of
      (history
         (snd (BinanceRestAPI_get_open_orders (R := scripted) (_rest_api self)
                 (VStr (_raw_symbol self)) st0)))
    = [Fetch "GET"
         ("/api/v3/openOrders?" ++ open_orders_query ++ "&signature="
          ++ hmac_sha256_hex "AK" open_orders_query)
         [("X-MBX-APIKEY", VStr "https://api.binance.com")]
         VNone (VStr "connection refused")] /\
    hmac_sha256_hex "AK" open_orders_query <> hmac_sha256_hex "SK" open_orders_query.
Proof.
  eexists _, _. split; [vm_compute; reflexivity|].
  split; [reflexivity|]. split; [reflexivity|]. split; [reflexivity|].
  split; [vm_compute; reflexivity|].
  vm_compute. intros [=].
Qed.

(** C3, the claim as stated fails: with two open orders and the first
    cancel rejected, the second order receives no cancel call. *)
Lemma revoke_order_all_skips_orders_after_failure :
  ~ revoke_all_cancels_each_open_order (R := scripted) wired_trade
      two_open_orders_first_cancel_fails.
Proof.
  intros H.
  unfold revoke_all_cancels_each_open_order in H.
  edestruct H as (r & st' & calls & Hrun & Hf & Hall & _).
  - vm_compute. reflexivity.
  - reflexivity.
  - reflexivity.
  - constructor; [reflexivity|]. constructor; [reflexivity|]. constructor.
  - vm_lhs_in Hrun. injection Hrun as _ <-.
    vm_lhs_in Hf. injection Hf as <-.
    inversion Hall as [|? ? ? ? _ Hrest]. inversion Hrest.
Qed.

Lemma revoke_order_all_stops_at_first_failure_witness :
  exists r st' calls,
    BinanceTrade_revoke_order (R := scripted) wired_trade []
      two_open_orders_first_cancel_fails = (Done r, st') /\
    (r = RevokeAll true VNone <-> Forall (fun c => call_failed c = false) calls) /\
    ((r = RevokeAll true VNone /\ List.length calls = 2%nat)
     \/ exists calls0 c,
          calls = (calls0 ++ [c])%list /\
          Forall (fun c => call_failed c = false) calls0 /\
          call_failed c = true /\ r = RevokeAll false (reply_error c)).
Proof.
  edestruct (revoke_order_all_stops_at_first_failure (R := scripted) wired_trade
               two_open_orders_first_cancel_fails)
    as (r & st' & calls & Hrun & _ & _ & _ & Hiff & Hcases).
  - exact wired_trade_usable.
  - vm_compute. reflexivity.
  - reflexivity.
  - reflexivity.
  - constructor; [reflexivity|]. constructor; [reflexivity|]. constructor.
  - exists r, st', calls. split; [exact Hrun|]. split; [exact Hiff|exact Hcases].
Defined.

Lemma revoke_order_many_partition_witness :
  exists st',
    BinanceTrade_revoke_order (R := scripted) wired_trade [VInt 1; VInt 2]
      second_cancel_fails
    = (Done (RevokeMany [VInt 1] [(VInt 2, VStr "rejected")]), st').
Proof.
  destruct (revoke_order_many_partition (R := scripted) wired_trade [VInt 1; VInt 2]
              second_cancel_fails wired_trade_usable ltac:(simpl; lia))
    as (calls & h & st' & Hrun & _).
  pose proof Hrun as Hval. vm_lhs_in Hval. injection Hval as Hok Hbad _.
  exists st'. rewrite Hrun. do 2 f_equal. f_equal; symmetry; [exact Hok|exact Hbad].
Defined.

Lemma status_mapping_total_unknown_skipped_witness :
  BinanceTrade_process (R := scripted) wired_trade
    (example_report "BTCUSDT" 1 "PENDING_CANCEL" "1.0" "0.0" 5) (state_with [])
  = (Done tt,
     mkState ∅ (1600000000000, [])
       [Callback error_callback [AValue (VStr "order status error.")]]).
Proof.
  destruct (status_mapping_total_unknown_skipped (R := scripted) wired_trade)
    as (_ & _ & _ & _ & Hstream).
  apply (Hstream _ (VInt 1) (VStr "PENDING_CANCEL")); try reflexivity.
  intros s Hs. unfold exchange_statuses in Hs.
  repeat (apply elem_of_cons in Hs as [-> | Hs]; [discriminate|]).
  apply elem_of_nil in Hs. contradiction.
Defined.

Lemma process_last_write_wins_witness :
  exists st' o,
    process_all (R := scripted) wired_trade
      ([example_report "BTCUSDT" 1 "NEW" "1.0" "0.0" 5;
        example_report "BTCUSDT" 1 "PARTIALLY_FILLED" "1.0" "0.9" 6]
       ++ [example_report "BTCUSDT" 1 "PARTIALLY_FILLED" "1.0" "0.4" 7])
      (state_with [])
    = (Done tt, st') /\
    remain o = VFloat 60000000 /\ status o = ORDER_STATUS_PARTIAL_FILLED /\
    utime o = VInt 7 /\ _orders st' !! "1" = Some o.
Proof.
  destruct (process_last_write_wins (R := scripted) wired_trade "1"
              [example_report "BTCUSDT" 1 "NEW" "1.0" "0.0" 5;
               example_report "BTCUSDT" 1 "PARTIALLY_FILLED" "1.0" "0.9" 6]
              (example_report "BTCUSDT" 1 "PARTIALLY_FILLED" "1.0" "0.4" 7)
              (state_with [])
              (VStr "PARTIALLY_FILLED") (VStr "1.0") (VStr "0.4") (VInt 7)
              ORDER_STATUS_PARTIAL_FILLED 100000000 40000000)
    as (st' & o & Hrun & Hrem & Hst & Hut & _ & Hlook);
    try reflexivity.
  - constructor; [reflexivity|]. constructor; [reflexivity|]. constructor.
  - exists st', o. repeat split; assumption.
Defined.


Lemma process_ignores_other_symbol_witness :
  BinanceTrade_process (R := scripted) wired_trade
    (example_report "ETHUSDT" 7 "NEW" "1.0" "0.0" 5) (state_with [])
  = (Done tt, state_with []).
Proof.
  apply (process_ignores_other_symbol (R := scripted) wired_trade _ (VStr "ETHUSDT"));
    [reflexivity|reflexivity|discriminate].
Defined.


Lemma init_validation_does_not_halt_witness :
  (exists msg k st',
      BinanceTrade_init (R := scripted) (delete "account" example_kwargs) (state_with [])
      = (Raised (KeyError k), st') /\
      history st'
      = [Callback error_callback [AError msg];
         Callback init_callback [AValue (VBool false)]]) /\
  BinanceTrade_init (R := scripted) (delete "platform" example_kwargs) (state_with [])
  = (Raised (KeyError "platform"), state_with []).
Proof.
  split.
  - destruct (proj1 (init_validation_does_not_halt (R := scripted))
                (delete "account" example_kwargs) (state_with []) "account")
      as (msg & k & st' & Hrun & Hh & _).
    + constructor.
    + apply lookup_delete_eq.
    + eexists. vm_compute. reflexivity.
    + eexists. vm_compute. reflexivity.
    + exists msg, k, st'. split; assumption.
  - apply (proj2 (init_validation_does_not_halt (R := scripted))).
    + apply lookup_delete_eq.
    + intros key Hkey. unfold validated_keywords in Hkey.
      repeat (apply elem_of_cons in Hkey as [-> | Hkey]; [vm_compute; reflexivity|]).
      apply elem_of_nil in Hkey. contradiction.
Defined.
